(** * Job search tools: a shallow embedding of [src/tools.py]

    The development models the three helpers of the job search tool and the
    tool itself:

    - [_validate_search_input]        (request validator),
    - [_make_api_request_with_retry]  (resilient fetcher),
    - [_format_job_listing]           (listing formatter),
    - [search_jobs]                   (the tool built from the three).

    Python values are an inductive type of JSON-shaped data, Python strings are
    sequences of Unicode code points, exceptions are an error monad, and the
    network is an explicit world that answers each [requests.get]. *)

From Stdlib Require Import String Ascii Decimal.
From Stdlib Require Import Floats.SpecFloat.
From Stdlib Require Import ZArith NArith Bool Lia List.
Import ListNotations.

Local Open Scope Z_scope.
Local Open Scope list_scope.

(* ================================================================= *)
(** ** Python strings *)

(** A Python [str] is a sequence of code points; [len] and slicing count code
    points, so the model keeps one list element per code point. *)
Abbreviation pystr := (list N) (only parsing).

(** An ASCII literal as a Python string. *)
Definition lit (s : string) : pystr :=
  List.map N_of_ascii (list_ascii_of_string s).
Arguments lit s%_string.

Definition nl : pystr := [10%N].
Definition dquote : pystr := [34%N].

Definition str_eqb (a b : pystr) : bool :=
  if list_eq_dec N.eq_dec a b then true else false.

(** [sep.join(parts)] *)
Fixpoint py_join (sep : pystr) (parts : list pystr) : pystr :=
  match parts with
  | [] => []
  | [p] => p
  | p :: rest => p ++ sep ++ py_join sep rest
  end.

(** [s * n] for a string [s] *)
Fixpoint py_repeat (s : pystr) (n : nat) : pystr :=
  match n with
  | O => []
  | S n' => s ++ py_repeat s n'
  end.

(** [str.isspace] on one code point: the characters [str.strip()] removes. *)
Definition isspace (c : N) : bool :=
  (((9 <=? c) && (c <=? 13)) || ((28 <=? c) && (c <=? 32))
   || (c =? 133) || (c =? 160) || (c =? 5760)
   || ((8192 <=? c) && (c <=? 8202))
   || (c =? 8232) || (c =? 8233) || (c =? 8239) || (c =? 8287)
   || (c =? 12288))%N.

Fixpoint lstrip (s : pystr) : pystr :=
  match s with
  | [] => []
  | c :: s' => if isspace c then lstrip s' else s
  end.

Definition rstrip (s : pystr) : pystr := rev (lstrip (rev s)).

(** [s.strip()] *)
Definition strip (s : pystr) : pystr := rstrip (lstrip s).

(** [needle in hay] for strings *)
Definition substring_of (needle hay : pystr) : Prop :=
  exists pre post, hay = pre ++ needle ++ post.

Fixpoint starts_with (p s : pystr) : bool :=
  match p, s with
  | [], _ => true
  | a :: p', b :: s' => (a =? b)%N && starts_with p' s'
  | _ :: _, [] => false
  end.

Fixpoint containsb (needle hay : pystr) : bool :=
  starts_with needle hay ||
  match hay with
  | [] => false
  | _ :: hay' => containsb needle hay'
  end.

(* ----------------------------------------------------------------- *)
(** *** Decimal rendering of integers *)

Fixpoint uint_chars (d : Decimal.uint) : pystr :=
  match d with
  | Nil => []
  | D0 d' => 48%N :: uint_chars d'
  | D1 d' => 49%N :: uint_chars d'
  | D2 d' => 50%N :: uint_chars d'
  | D3 d' => 51%N :: uint_chars d'
  | D4 d' => 52%N :: uint_chars d'
  | D5 d' => 53%N :: uint_chars d'
  | D6 d' => 54%N :: uint_chars d'
  | D7 d' => 55%N :: uint_chars d'
  | D8 d' => 56%N :: uint_chars d'
  | D9 d' => 57%N :: uint_chars d'
  end.

(** The decimal digits of a natural number, most significant first. *)
Definition digits (n : N) : pystr := uint_chars (N.to_uint n).

(** [str(z)] for an [int] *)
Definition int_str (z : Z) : pystr :=
  if z <? 0 then 45%N :: digits (Z.abs_N z) else digits (Z.abs_N z).

(** The [,] option of the format mini-language: a comma every three digits,
    counted from the right.  The argument is the digit string reversed. *)
Fixpoint group3 (rev_digits : pystr) : pystr :=
  match rev_digits with
  | a :: b :: c :: ((_ :: _) as rest) => a :: b :: c :: 44%N :: group3 rest
  | _ => rev_digits
  end.

Definition thousands (n : N) : pystr := rev (group3 (rev (digits n))).

(* ================================================================= *)
(** ** Python values and exceptions *)

(** What [response.json()] can produce, hence what the tool can be handed. *)
#[warnings="-register-all"]
Inductive pyval : Type :=
| PyNone
| PyBool (b : bool)
| PyInt (z : Z)
| PyFloat (f : spec_float)
| PyStr (s : pystr)
| PyList (l : list pyval)
| PyDict (d : list (pystr * pyval)).

(** A [dict] is its items in insertion order; the first binding of a key is
    the one that counts. *)
Definition pydict : Type := list (pystr * pyval).

Inductive exn : Type :=
| KeyError
| TypeError
| AttributeError
| ValueError
| OverflowError.

Inductive result (A : Type) : Type :=
| Ok (a : A)
| Raise (e : exn).
Arguments Ok {A} a.
Arguments Raise {A} e.

Definition bind {A B : Type} (m : result A) (k : A -> result B) : result B :=
  match m with
  | Ok a => k a
  | Raise e => Raise e
  end.

Declare Scope py_scope.
Delimit Scope py_scope with py.
Notation "x <- m ;; k" := (bind m (fun x => k))
  (at level 61, m at next level, right associativity) : py_scope.
Local Open Scope py_scope.

(* ----------------------------------------------------------------- *)
(** *** Dictionaries *)

Fixpoint lookup (k : pystr) (d : pydict) : option pyval :=
  match d with
  | [] => None
  | (k', v) :: d' => if str_eqb k k' then Some v else lookup k d'
  end.

(** [k in d] *)
Definition dict_contains (k : pystr) (d : pydict) : bool :=
  match lookup k d with Some _ => true | None => false end.

(** [d[k]] *)
Definition dict_getitem (d : pydict) (k : pystr) : result pyval :=
  match lookup k d with
  | Some v => Ok v
  | None => Raise KeyError
  end.

(** [d.get(k, default)] on a dictionary *)
Definition dict_get (d : pydict) (k : pystr) (default : pyval) : pyval :=
  match lookup k d with
  | Some v => v
  | None => default
  end.

(** [v.get(k, default)] on an arbitrary value: only a [dict] has the method. *)
Definition py_get (v : pyval) (k : pystr) (default : pyval) : result pyval :=
  match v with
  | PyDict d => Ok (dict_get d k default)
  | _ => Raise AttributeError
  end.

(** The keys of a dictionary, each once. *)
Definition dict_keys (d : pydict) : list pystr :=
  nodup (list_eq_dec N.eq_dec) (List.map fst d).

(* ----------------------------------------------------------------- *)
(** *** Built-in operations *)

Definition is_str (v : pyval) : bool :=
  match v with PyStr _ => true | _ => false end.

(** [isinstance(v, int)]: [bool] is a subclass of [int]. *)
Definition is_int (v : pyval) : bool :=
  match v with PyInt _ | PyBool _ => true | _ => false end.

Definition float_is_zero (f : spec_float) : bool :=
  match f with S754_zero _ => true | _ => false end.

(** [bool(v)] *)
Definition truthy (v : pyval) : bool :=
  match v with
  | PyNone => false
  | PyBool b => b
  | PyInt z => negb (z =? 0)
  | PyFloat f => negb (float_is_zero f)
  | PyStr s => match s with [] => false | _ => true end
  | PyList l => match l with [] => false | _ => true end
  | PyDict d => match d with [] => false | _ => true end
  end.

(** [len(v)] *)
Definition py_len (v : pyval) : result nat :=
  match v with
  | PyStr s => Ok (length s)
  | PyList l => Ok (length l)
  | PyDict d => Ok (length (dict_keys d))
  | _ => Raise TypeError
  end.

(** [iter(v)], as the list of the items a [for] loop visits. *)
Definition py_iter (v : pyval) : result (list pyval) :=
  match v with
  | PyStr s => Ok (List.map (fun c => PyStr [c]) s)
  | PyList l => Ok l
  | PyDict d => Ok (List.map PyStr (dict_keys d))
  | _ => Raise TypeError
  end.

(** [v.strip()]: a method of [str] only. *)
Definition py_strip (v : pyval) : result pystr :=
  match v with
  | PyStr s => Ok (strip s)
  | _ => Raise AttributeError
  end.

(** The integer an [int] or [bool] compares as; other types do not order
    against an [int] literal ([float] does, but the validator never asks). *)
Definition int_value (v : pyval) : result Z :=
  match v with
  | PyInt z => Ok z
  | PyBool b => Ok (if b then 1 else 0)
  | _ => Raise TypeError
  end.

(** [v < n] and [v > n] against an integer literal *)
Definition py_lt (v : pyval) (n : Z) : result bool :=
  z <- int_value v ;; Ok (z <? n).
Definition py_gt (v : pyval) (n : Z) : result bool :=
  z <- int_value v ;; Ok (z >? n).

(* ----------------------------------------------------------------- *)
(** *** Numbers under the format specification [,.0f] *)

(** [a / d] rounded to the nearest integer, ties to even ([0 < d]). *)
Definition round_half_even (a d : Z) : Z :=
  let q := a / d in
  let r := a mod d in
  if 2 * r <? d then q
  else if d <? 2 * r then q + 1
  else if Z.even q then q else q + 1.

(** [float(z)] for an [int]: the nearest binary64 number, ties to even, and
    [OverflowError] when that would be infinite.  The result is an integer, kept
    as the mantissa with exponent 0. *)
Definition float_of_int (z : Z) : result spec_float :=
  let a := Z.abs z in
  let k := Z.log2 a - 52 in
  let r := if k <=? 0 then a else round_half_even a (2 ^ k) * 2 ^ k in
  if 2 ^ 1024 <=? r then Raise OverflowError
  else match r with
       | Zpos m => Ok (S754_finite (z <? 0) m 0)
       | _ => Ok (S754_zero false)
       end.

(** The integer nearest to [m * 2^e], ties to even. *)
Definition float_round (m : positive) (e : Z) : N :=
  Z.to_N (if 0 <=? e then Zpos m * 2 ^ e
          else round_half_even (Zpos m) (2 ^ (- e))).

(** [format(f, ",.0f")] for a [float] *)
Definition format_float_comma_0f (f : spec_float) : pystr :=
  match f with
  | S754_nan => lit "nan"
  | S754_infinity s => if s then lit "-inf" else lit "inf"
  | S754_zero s => if s then lit "-0" else lit "0"
  | S754_finite s m e =>
      (if s then lit "-" else []) ++ thousands (float_round m e)
  end.

(** [format(v, ",.0f")], what [f"{v:,.0f}"] inserts: [int] and [bool] go
    through [float]; [str] rejects the code [f]; the other types accept no
    format specification at all. *)
Definition format_comma_0f (v : pyval) : result pystr :=
  match v with
  | PyInt z => f <- float_of_int z ;; Ok (format_float_comma_0f f)
  | PyBool b =>
      f <- float_of_int (if b then 1 else 0) ;; Ok (format_float_comma_0f f)
  | PyFloat f => Ok (format_float_comma_0f f)
  | PyStr _ => Raise ValueError
  | PyNone | PyList _ | PyDict _ => Raise TypeError
  end.

(* ================================================================= *)
(** ** Configuration ([src/config.py]) *)

Definition ADZUNA_BASE_URL : pystr := lit "https://api.adzuna.com/v1/api/jobs".
Definition ADZUNA_COUNTRY : pystr := lit "us".
Definition API_TIMEOUT : Z := 30.
Definition API_MAX_RETRIES : Z := 3.
Definition API_RETRY_DELAY : Z := 2.

(* ================================================================= *)
(** ** Request validator *)

Definition required_fields : list pystr :=
  [lit "role"; lit "location"; lit "num_results"].

(** The loop over [required_fields]: the first field that is not a key. *)
Fixpoint first_missing (fields : list pystr) (input_data : pydict)
  : option pystr :=
  match fields with
  | [] => None
  | field :: fields' =>
      if negb (dict_contains field input_data) then Some field
      else first_missing fields' input_data
  end.

(** [not isinstance(v, str) or len(v.strip()) == 0] *)
Definition not_nonempty_str (v : pyval) : result bool :=
  if negb (is_str v) then Ok true
  else s <- py_strip v ;; Ok (length s =? 0)%nat.

(** [v < 1 or v > 50] *)
Definition out_of_range (v : pyval) : result bool :=
  low <- py_lt v 1 ;;
  if low then Ok true else py_gt v 50.

Definition _validate_search_input (input_data : pydict)
  : result (bool * pystr) :=
  match first_missing required_fields input_data with
  | Some field =>
      Ok (false, lit "Missing required field: '" ++ field ++ lit "'")
  | None =>
      role <- dict_getitem input_data (lit "role") ;;
      bad_role <- not_nonempty_str role ;;
      if bad_role then Ok (false, lit "Role must be a non-empty string")
      else
        location <- dict_getitem input_data (lit "location") ;;
        bad_location <- not_nonempty_str location ;;
        if bad_location
        then Ok (false, lit "Location must be a non-empty string")
        else
          num_results <- dict_getitem input_data (lit "num_results") ;;
          if negb (is_int num_results)
          then Ok (false, lit "num_results must be an integer")
          else
            bad_range <- out_of_range num_results ;;
            if bad_range
            then Ok (false, lit "num_results must be between 1 and 50")
            else Ok (true, [])
  end.

(* ================================================================= *)
(** ** Resilient fetcher *)

(** What one pass through the [try] block meets: [requests.get] raises, or it
    returns a response with a status code and a body that [response.json()]
    parses ([Some]) or rejects with [JSONDecodeError] ([None]). *)
Inductive attempt_outcome : Type :=
| Response (status_code : Z) (json : option pyval)
| Timeout
| ConnectionError
| RequestException.

(** The network: the server answers the [n]-th request of the run, given its
    URL and timeout.  The world records every request sent and every sleep.
    The diagnostic [print]s of the source are not recorded. *)
Record world : Type := mkWorld {
  server : nat -> pystr -> Z -> attempt_outcome;
  requests_sent : list pystr;
  sleeps : list Z
}.

Definition requests_get (url : pystr) (timeout : Z) (w : world)
  : attempt_outcome * world :=
  (server w (length (requests_sent w)) url timeout,
   mkWorld (server w) (requests_sent w ++ [url]) (sleeps w)).

Definition time_sleep (seconds : Z) (w : world) : world :=
  mkWorld (server w) (requests_sent w) (sleeps w ++ [seconds]).

(** [response.raise_for_status()] raises [HTTPError] on 4xx and 5xx. *)
Definition raises_for_status (status_code : Z) : bool :=
  (400 <=? status_code) && (status_code <? 600).

(** The body of [for attempt in range(max_retries)], over the attempt numbers
    still to run; leaving the loop returns [None]. *)
Fixpoint retry_loop (url : pystr) (max_retries timeout : Z)
  (attempts : list nat) (w : world) : pyval * world :=
  match attempts with
  | [] => (PyNone, w)
  | attempt :: attempts' =>
      let (outcome, w1) := requests_get url timeout w in
      match outcome with
      | Response status_code json =>
          if raises_for_status status_code then
            if status_code =? 429 then
              retry_loop url max_retries timeout attempts'
                (time_sleep API_RETRY_DELAY w1)
            else if status_code >=? 500 then
              retry_loop url max_retries timeout attempts'
                (time_sleep API_RETRY_DELAY w1)
            else (PyNone, w1)
          else
            match json with
            | Some payload => (payload, w1)
            | None => (PyNone, w1)
            end
      | Timeout | ConnectionError =>
          if Z.of_nat attempt <? max_retries - 1 then
            retry_loop url max_retries timeout attempts'
              (time_sleep API_RETRY_DELAY w1)
          else (PyNone, w1)
      | RequestException => (PyNone, w1)
      end
  end.

Definition _make_api_request_with_retry (url : pystr)
  (max_retries timeout : Z) (w : world) : pyval * world :=
  retry_loop url max_retries timeout (seq 0 (Z.to_nat max_retries)) w.

(** The payload of an attempt that succeeds: a status that
    [raise_for_status] lets through and a body that parses. *)
Definition parsed_payload (o : attempt_outcome) : option pyval :=
  match o with
  | Response status_code (Some payload) =>
      if raises_for_status status_code then None else Some payload
  | _ => None
  end.

(* ================================================================= *)
(** ** Listing formatter and the tool *)

(** [max_description_length] *)
Definition max_description_length : nat := 500.

(** Lines 129-135: the salary text, chosen by the truth value of each bound. *)
Definition salary_info (salary_min salary_max : pyval) : result pystr :=
  if truthy salary_min && truthy salary_max then
    lo <- format_comma_0f salary_min ;;
    hi <- format_comma_0f salary_max ;;
    Ok (lit "$" ++ lo ++ lit " - $" ++ hi)
  else if truthy salary_min then
    lo <- format_comma_0f salary_min ;; Ok (lit "From $" ++ lo)
  else if truthy salary_max then
    hi <- format_comma_0f salary_max ;; Ok (lit "Up to $" ++ hi)
  else Ok (lit "Not specified").

(** Lines 138-140: [len] is defined on strings, lists and dictionaries only;
    the slice followed by [+ "..."] is defined on strings only. *)
Definition truncate_description (description : pyval) : result pyval :=
  n <- py_len description ;;
  if (max_description_length <? n)%nat then
    match description with
    | PyStr s => Ok (PyStr (firstn max_description_length s ++ lit "..."))
    | _ => Raise TypeError
    end
  else Ok description.

(** Text given line by line. *)
Definition lines (ls : list pystr) : pystr := py_join nl ls.

(** The f-string of lines 143-155, before [strip]. *)
Definition job_template
  (title company location salary created description url : pystr) : pystr :=
  lines
    [ [];
      lit "<job>";
      lit "    <title>" ++ title ++ lit "</title>";
      lit "    <company>" ++ company ++ lit "</company>";
      lit "    <location>" ++ location ++ lit "</location>";
      lit "    <salary>" ++ salary ++ lit "</salary>";
      lit "    <posted_date>" ++ created ++ lit "</posted_date>";
      lit "    <description>";
      lit "        " ++ description;
      lit "    </description>";
      lit "    <apply_url>" ++ url ++ lit "</apply_url>";
      lit "</job>";
      [] ].

(** The template without its blank first and last lines. *)
Definition job_block
  (title company location salary created description url : pystr) : pystr :=
  lines
    [ lit "<job>";
      lit "    <title>" ++ title ++ lit "</title>";
      lit "    <company>" ++ company ++ lit "</company>";
      lit "    <location>" ++ location ++ lit "</location>";
      lit "    <salary>" ++ salary ++ lit "</salary>";
      lit "    <posted_date>" ++ created ++ lit "</posted_date>";
      lit "    <description>";
      lit "        " ++ description;
      lit "    </description>";
      lit "    <apply_url>" ++ url ++ lit "</apply_url>";
      lit "</job>" ].

Definition invalid_input_message (error_message : pystr) : pystr :=
  lines
    [ [];
      [10060%N] ++ lit " ERROR: Invalid input parameters.";
      [];
      error_message;
      [];
      lit "Please provide valid parameters:";
      lit "- role: Job title (non-empty string)";
      lit "- location: Search location (non-empty string)";
      lit "- num_results: Number of results (1-50)";
      [] ].

Definition missing_credentials_message : pystr :=
  lines
    [ [];
      [10060%N] ++ lit " ERROR: Adzuna API credentials not configured.";
      [];
      lit "Please set the following environment variables:";
      lit "- ADZUNA_APP_ID";
      lit "- ADZUNA_API_KEY";
      [];
      lit "See the .env.example file for details.";
      [] ].

Definition fetch_failed_message : pystr :=
  lines
    [ [];
      [10060%N] ++ lit " ERROR: Failed to fetch job listings from Adzuna API.";
      [];
      lit "Possible causes:";
      lit "- Network connection issues";
      lit "- API service temporarily unavailable";
      lit "- Rate limit exceeded";
      [];
      lit "Please try again in a few moments.";
      [] ].

Definition no_results_message (role location : pystr) : pystr :=
  lines
    [ [];
      [8505%N; 65039%N] ++ lit "  No job listings found for '" ++ role
        ++ lit "' in " ++ location ++ lit ".";
      [];
      lit "Suggestions:";
      lit "- Try a broader search term (e.g., " ++ dquote ++ lit "Data"
        ++ dquote ++ lit " instead of " ++ dquote
        ++ lit "Senior Data Scientist" ++ dquote ++ lit ")";
      lit "- Try a different location";
      lit "- Try searching for related roles";
      [] ].

(** The f-string of lines 329-341, the receiver of [.join]. *)
Definition summary_block (found : nat) (total_count role location : pystr)
  : pystr :=
  lines
    [ [];
      [9989%N] ++ lit " Successfully found " ++ int_str (Z.of_nat found)
        ++ lit " job listings (out of " ++ total_count
        ++ lit " total matches)";
      [];
      lit "Search Parameters:";
      lit "- Role: " ++ role;
      lit "- Location: " ++ location;
      [];
      lit "Job Listings:";
      py_repeat (lit "=") 80;
      [];
      py_repeat (lit "=") 80;
      [];
      [] ].

(** [f"[Job {i}/{n}]\n{formatted_job}"] *)
Definition numbered (i n : nat) (formatted_job : pystr) : pystr :=
  lit "[Job " ++ int_str (Z.of_nat i) ++ lit "/" ++ int_str (Z.of_nat n)
    ++ lit "]" ++ nl ++ formatted_job.

(** [not v] for a value read by [os.getenv] *)
Definition env_unset (v : option pystr) : bool :=
  match v with
  | None | Some [] => true
  | Some (_ :: _) => false
  end.

Definition env_str (v : option pystr) : pystr :=
  match v with
  | Some s => s
  | None => lit "None"
  end.

Section Tools.

(** [repr] of a [float] and of a [str] are left to the interpreter. *)
Variable float_repr : spec_float -> pystr.
Variable str_repr : pystr -> pystr.

(** The credentials [src/config.py] reads from the environment at import. *)
Variable ADZUNA_APP_ID : option pystr.
Variable ADZUNA_API_KEY : option pystr.

Fixpoint py_repr (v : pyval) : pystr :=
  match v with
  | PyNone => lit "None"
  | PyBool b => if b then lit "True" else lit "False"
  | PyInt z => int_str z
  | PyFloat f => float_repr f
  | PyStr s => str_repr s
  | PyList l => lit "[" ++ py_join (lit ", ") (List.map py_repr l) ++ lit "]"
  | PyDict d =>
      lit "{"
      ++ py_join (lit ", ")
           (List.map (fun kv => str_repr (fst kv) ++ lit ": "
                                ++ py_repr (snd kv)) d)
      ++ lit "}"
  end.

(** [str(v)], what [f"{v}"] inserts. *)
Definition py_str (v : pyval) : pystr :=
  match v with
  | PyStr s => s
  | _ => py_repr v
  end.

Definition _format_job_listing (job : pyval) : result pystr :=
  title <- py_get job (lit "title") (PyStr (lit "N/A")) ;;
  company_obj <- py_get job (lit "company") (PyDict []) ;;
  company <- py_get company_obj (lit "display_name") (PyStr (lit "N/A")) ;;
  location_obj <- py_get job (lit "location") (PyDict []) ;;
  location <- py_get location_obj (lit "display_name") (PyStr (lit "N/A")) ;;
  description <-
    py_get job (lit "description") (PyStr (lit "No description available")) ;;
  salary_min <- py_get job (lit "salary_min") PyNone ;;
  salary_max <- py_get job (lit "salary_max") PyNone ;;
  url <- py_get job (lit "redirect_url") (PyStr (lit "N/A")) ;;
  created <- py_get job (lit "created") (PyStr (lit "N/A")) ;;
  salary <- salary_info salary_min salary_max ;;
  description <- truncate_description description ;;
  Ok (strip (job_template (py_str title) (py_str company) (py_str location)
               salary (py_str created) (py_str description) (py_str url))).

(** Lines 322-325: the loop over [enumerate(results, 1)], from index [i]. *)
Fixpoint format_jobs (i n : nat) (jobs : list pyval) : result (list pystr) :=
  match jobs with
  | [] => Ok []
  | job :: jobs' =>
      formatted_job <- _format_job_listing job ;;
      rest <- format_jobs (S i) n jobs' ;;
      Ok (numbered i n formatted_job :: rest)
  end.

(** Step 5 of [search_jobs] (lines 309-345). *)
Definition format_results (jobs_data role location : pyval)
  : result pystr :=
  results <- py_get jobs_data (lit "results") (PyList []) ;;
  none <- (if negb (truthy results) then Ok true
           else n <- py_len results ;; Ok (n =? 0)%nat) ;;
  if none then Ok (no_results_message (py_str role) (py_str location))
  else
    jobs <- py_iter results ;;
    n <- py_len results ;;
    formatted_jobs <- format_jobs 1 n jobs ;;
    total_count <- py_get jobs_data (lit "count") (PyInt (Z.of_nat n)) ;;
    Ok (py_join
          (summary_block n (py_str total_count) (py_str role)
             (py_str location))
          formatted_jobs).

(** Step 3 of [search_jobs]: the request URL. *)
Definition search_url (role location num_results : pyval) : pystr :=
  ADZUNA_BASE_URL ++ lit "/" ++ ADZUNA_COUNTRY ++ lit "/search/1"
  ++ lit "?app_id=" ++ env_str ADZUNA_APP_ID
  ++ lit "&app_key=" ++ env_str ADZUNA_API_KEY
  ++ lit "&results_per_page=" ++ py_str num_results
  ++ lit "&what=" ++ py_str role
  ++ lit "&where=" ++ py_str location
  ++ lit "&content-type=application/json".

Definition search_jobs (role location num_results : pyval) (w : world)
  : result pystr * world :=
  let input_data :=
    [ (lit "role", role); (lit "location", location);
      (lit "num_results", num_results) ] in
  match _validate_search_input input_data with
  | Raise e => (Raise e, w)
  | Ok (is_valid, error_message) =>
      if negb is_valid then (Ok (invalid_input_message error_message), w)
      else if env_unset ADZUNA_APP_ID || env_unset ADZUNA_API_KEY
      then (Ok missing_credentials_message, w)
      else
        let url := search_url role location num_results in
        let (jobs_data, w1) :=
          _make_api_request_with_retry url API_MAX_RETRIES API_TIMEOUT w in
        match jobs_data with
        | PyNone => (Ok fetch_failed_message, w1)
        | _ => (format_results jobs_data role location, w1)
        end
  end.

End Tools.

(* ================================================================= *)
(** ** The validator's contract, in the words of the specification *)

(** The violations a request can show, and the fixed order in which they are
    looked for. *)
Inductive violation : Type :=
| MissingField (field : pystr)
| RoleEmpty
| LocationEmpty
| NumResultsType
| NumResultsRange.

Definition checks : list violation :=
  [ MissingField (lit "role"); MissingField (lit "location");
    MissingField (lit "num_results");
    RoleEmpty; LocationEmpty; NumResultsType; NumResultsRange ].

(** A field is a usable string when it is a [str] whose trimmed length is
    positive. *)
Definition blank (v : option pyval) : bool :=
  match v with
  | Some (PyStr s) => (length (strip s) =? 0)%nat
  | _ => true
  end.

Definition violated (d : pydict) (v : violation) : bool :=
  match v with
  | MissingField field => negb (dict_contains field d)
  | RoleEmpty => blank (lookup (lit "role") d)
  | LocationEmpty => blank (lookup (lit "location") d)
  | NumResultsType =>
      match lookup (lit "num_results") d with
      | Some (PyInt _) | Some (PyBool _) => false
      | _ => true
      end
  | NumResultsRange =>
      match lookup (lit "num_results") d with
      | Some (PyInt n) => (n <? 1) || (50 <? n)
      | Some (PyBool b) => negb b
      | _ => true
      end
  end.

Definition violation_message (v : violation) : pystr :=
  match v with
  | MissingField field => lit "Missing required field: '" ++ field ++ lit "'"
  | RoleEmpty => lit "Role must be a non-empty string"
  | LocationEmpty => lit "Location must be a non-empty string"
  | NumResultsType => lit "num_results must be an integer"
  | NumResultsRange => lit "num_results must be between 1 and 50"
  end.

(** The first violation in the fixed order decides the answer. *)
Definition validate_spec (d : pydict) : bool * pystr :=
  match find (violated d) checks with
  | Some v => (false, violation_message v)
  | None => (true, [])
  end.

(** The request [search_jobs] builds from its three arguments. *)
Definition request (role location num_results : pyval) : pydict :=
  [ (lit "role", role); (lit "location", location);
    (lit "num_results", num_results) ].

(** The description rule in the words of the specification: above 500
    characters keep the first 500 and append the ellipsis, else unchanged. *)
Definition shown_description (s : pystr) : pystr :=
  if (500 <? length s)%nat then firstn 500 s ++ lit "..." else s.

(** A salary value the formatter can print: null, a boolean, a float, or an
    integer that is a float exactly. *)
Definition plain_number (v : pyval) : bool :=
  match v with
  | PyNone | PyBool _ | PyFloat _ => true
  | PyInt z => Z.abs z <? 2 ^ 53
  | _ => false
  end.

(* ================================================================= *)
(** ** Example data *)

(** Stand-ins for the interpreter's [repr] of floats and strings; the examples
    below never render a float, a list or a dictionary. *)
Definition ex_float_repr : spec_float -> pystr := fun _ => lit "<float>".
Definition ex_str_repr : pystr -> pystr := fun s => lit "'" ++ s ++ lit "'".

Definition test_app_id : option pystr := Some (lit "test_id").
Definition test_api_key : option pystr := Some (lit "test_key").

(** A world that has sent nothing yet and answers the [n]-th request with
    [answers n]. *)
Definition fresh_world (answers : nat -> attempt_outcome) : world :=
  mkWorld (fun n _ _ => answers n) [] [].

(** The first listing of the mocked response in [tests/test_tools.py]. *)
Definition listing_1 : pyval :=
  PyDict
    [ (lit "title", PyStr (lit "Data Scientist"));
      (lit "company",
       PyDict [(lit "display_name", PyStr (lit "Tech Company"))]);
      (lit "location",
       PyDict [(lit "display_name", PyStr (lit "Los Angeles, CA"))]);
      (lit "description",
       PyStr (lit "Looking for an experienced data scientist..."));
      (lit "salary_min", PyInt 100000);
      (lit "salary_max", PyInt 150000);
      (lit "redirect_url", PyStr (lit "https://example.com/job/1"));
      (lit "created", PyStr (lit "2025-10-15")) ].

(** What the formatter makes of [listing_1]. *)
Definition listing_1_formatted : pystr :=
  job_block (lit "Data Scientist") (lit "Tech Company")
    (lit "Los Angeles, CA") (lit "$100,000 - $150,000") (lit "2025-10-15")
    (lit "Looking for an experienced data scientist...")
    (lit "https://example.com/job/1").

Definition one_listing_payload : pydict :=
  [ (lit "count", PyInt 100); (lit "results", PyList [listing_1]) ].

Definition one_listing_world : world :=
  fresh_world (fun _ => Response 200 (Some (PyDict one_listing_payload))).

Definition not_found_world : world :=
  fresh_world (fun _ => Response 404 None).

Definition rate_limited_twice_world : world :=
  fresh_world (fun n =>
    match n with
    | 0%nat | 1%nat => Response 429 None
    | _ => Response 200 (Some (PyDict one_listing_payload))
    end).

Definition always_rate_limited_world : world :=
  fresh_world (fun _ => Response 429 None).



(** The salary of the listing in [test_format_job_listing]. *)
Definition salary_job : pydict :=
  [ (lit "salary_min", PyInt 120000); (lit "salary_max", PyInt 180000) ].

(** A listing whose minimum salary is present and zero. *)
Definition zero_min_job : pydict :=
  [ (lit "salary_min", PyInt 0); (lit "salary_max", PyInt 50000) ].



Definition example_request : pydict :=
  request (PyStr (lit "Data Scientist")) (PyStr (lit "Los Angeles")) (PyInt 50).

Definition example_request_True : pydict :=
  request (PyStr (lit "Data Scientist")) (PyStr (lit "Los Angeles"))
    (PyBool true).

Definition example_url : pystr :=
  search_url ex_float_repr ex_str_repr test_app_id test_api_key
    (PyStr (lit "Data Scientist")) (PyStr (lit "Los Angeles")) (PyInt 1).

(** Further worlds and listings for the examples. *)
Definition server_error_then_not_found_world : world :=
  fresh_world (fun n =>
    match n with
    | 0%nat => Response 503 None
    | _ => Response 404 None
    end).

Definition always_timeout_world : world := fresh_world (fun _ => Timeout).

Definition null_body_world : world :=
  fresh_world (fun _ => Response 200 (Some PyNone)).

Definition array_payload_world : world :=
  fresh_world (fun _ => Response 200 (Some (PyList []))).

(** A listing whose company is null, after a sound one. *)
Definition bad_listing_payload : pydict :=
  [ (lit "results",
     PyList [listing_1; PyDict [(lit "company", PyNone)]]) ].

Definition bad_listing_world : world :=
  fresh_world (fun _ => Response 200 (Some (PyDict bad_listing_payload))).

Definition null_results_world : world :=
  fresh_world (fun _ =>
    Response 200 (Some (PyDict [(lit "results", PyNone)]))).

Definition number_results_world : world :=
  fresh_world (fun _ =>
    Response 200 (Some (PyDict [(lit "results", PyInt 5)]))).

(** A listing whose title is tag text. *)
Definition tag_title_job : pydict :=
  [ (lit "title", PyStr (lit "</job><job>")) ].

Definition null_title_job : pydict := [ (lit "title", PyNone) ].

Definition blank_role_request : pydict :=
  request (PyStr (lit "   ")) (PyStr (lit "Los Angeles")) (PyInt 5).

(** [example_request] with its keys in another order and one more key. *)
Definition example_request_reordered : pydict :=
  [ (lit "page", PyInt 2); (lit "num_results", PyInt 50);
    (lit "location", PyStr (lit "Los Angeles"));
    (lit "role", PyStr (lit "Data Scientist")) ].

Definition salary_job_with_id : pydict :=
  (lit "id", PyInt 4321) :: salary_job.

(* ================================================================= *)
(** ** Outcome classes of the retry loop *)

(** Outcomes the [except HTTPError] handler answers with a sleep and
    [continue]: status 429 and the 5xx statuses. *)
Definition http_retryable (o : attempt_outcome) : bool :=
  match o with
  | Response status_code _ =>
      raises_for_status status_code
      && ((status_code =? 429) || (status_code >=? 500))
  | _ => false
  end.

(** Outcomes caught by the [Timeout] and [ConnectionError] handlers. *)
Definition network_error (o : attempt_outcome) : bool :=
  match o with
  | Timeout | ConnectionError => true
  | _ => false
  end.

(** Outcomes after which the loop returns [None] at once: another request
    exception, a body that does not parse, or a 4xx status other than 429. *)
Definition definitive (o : attempt_outcome) : bool :=
  match o with
  | RequestException => true
  | Response status_code json =>
      if raises_for_status status_code
      then negb ((status_code =? 429) || (status_code >=? 500))
      else match json with None => true | Some _ => false end
  | _ => false
  end.

(** The world after [k] more requests to [url] and [j] more sleeps. *)
Definition advance (w : world) (url : pystr) (k j : nat) : world :=
  mkWorld (server w) (requests_sent w ++ repeat url k)
    (sleeps w ++ repeat API_RETRY_DELAY j).

(** The answer to the [i]-th request counted from world [w]. *)
Definition answer (w : world) (url : pystr) (timeout : Z) (i : nat)
  : attempt_outcome :=
  server w (length (requests_sent w) + i)%nat url timeout.

(** A name field that falls back to its default: the parent key is absent, or
    it is a dictionary without [display_name]. *)
Definition no_display_name (v : option pyval) : Prop :=
  v = None
  \/ exists c, v = Some (PyDict c) /\ lookup (lit "display_name") c = None.

(** A name field that is given: the parent is a dictionary whose
    [display_name] is the string [name]. *)
Definition display_name_is (v : option pyval) (name : pystr) : Prop :=
  exists c,
    v = Some (PyDict c) /\ lookup (lit "display_name") c = Some (PyStr name).

(* ================================================================= *)
(** ** Configuration checks ([src/config.py]) *)

Module Config.

(** The module-level settings [validate_config] and [print_config] read.  The
    three keys come from the environment; the others are the constants a
    user of the workshop code is invited to edit. *)
Record t : Type := mk {
  ANTHROPIC_API_KEY : option pystr;
  ADZUNA_APP_ID : option pystr;
  ADZUNA_API_KEY : option pystr;
  DEFAULT_JOB_ROLE : pystr;
  DEFAULT_LOCATION : pystr;
  DEFAULT_NUM_RESULTS : Z;
  CLAUDE_MODEL : pystr;
  AGENT_VERBOSE : bool;
  AGENT_ALLOW_DELEGATION : bool;
  OUTPUT_DIR : pystr
}.

(** The settings as the source file has them, for given keys and output
    directory. *)
Definition shipped (anthropic app_id api_key : option pystr)
  (output_dir : pystr) : t :=
  mk anthropic app_id api_key
    (lit "Software Engineering Intern") (lit "Los Angeles") 5
    (lit "anthropic/claude-3-5-sonnet-20241022") true false output_dir.

(** [not s or len(s.strip()) == 0] for a string setting *)
Definition empty_setting (s : pystr) : bool :=
  match s with
  | [] => true
  | _ :: _ => (length (strip s) =? 0)%nat
  end.

(** [not s or not s.startswith("anthropic/")] *)
Definition bad_model (s : pystr) : bool :=
  match s with
  | [] => true
  | _ :: _ => negb (starts_with (lit "anthropic/") s)
  end.

Definition model_message : pystr :=
  lit "CLAUDE_MODEL must be a valid Claude model name "
  ++ lit "with 'anthropic/' prefix.".

(** The seven checks in source order, each with whether it fails and the
    message it appends. *)
Definition checks (c : t) : list (bool * pystr) :=
  [ (env_unset (ANTHROPIC_API_KEY c),
     lit "ANTHROPIC_API_KEY is not set. Please add it to your .env file.");
    (env_unset (ADZUNA_APP_ID c),
     lit "ADZUNA_APP_ID is not set. Please add it to your .env file.");
    (env_unset (ADZUNA_API_KEY c),
     lit "ADZUNA_API_KEY is not set. Please add it to your .env file.");
    (empty_setting (DEFAULT_JOB_ROLE c),
     lit "DEFAULT_JOB_ROLE cannot be empty.");
    (empty_setting (DEFAULT_LOCATION c),
     lit "DEFAULT_LOCATION cannot be empty.");
    ((DEFAULT_NUM_RESULTS c <? 1) || (DEFAULT_NUM_RESULTS c >? 50),
     lit "DEFAULT_NUM_RESULTS must be between 1 and 50.");
    (bad_model (CLAUDE_MODEL c),
     model_message) ].

(** [if cond: errors.append(msg)] *)
Definition append_if (cond : bool) (msg : pystr) (errors : list pystr)
  : list pystr :=
  if cond then errors ++ [msg] else errors.

Definition validate_config (c : t) : bool * list pystr :=
  let errors := [] in
  let errors :=
    append_if (env_unset (ANTHROPIC_API_KEY c))
      (lit "ANTHROPIC_API_KEY is not set. Please add it to your .env file.")
      errors in
  let errors :=
    append_if (env_unset (ADZUNA_APP_ID c))
      (lit "ADZUNA_APP_ID is not set. Please add it to your .env file.")
      errors in
  let errors :=
    append_if (env_unset (ADZUNA_API_KEY c))
      (lit "ADZUNA_API_KEY is not set. Please add it to your .env file.")
      errors in
  let errors :=
    append_if (empty_setting (DEFAULT_JOB_ROLE c))
      (lit "DEFAULT_JOB_ROLE cannot be empty.") errors in
  let errors :=
    append_if (empty_setting (DEFAULT_LOCATION c))
      (lit "DEFAULT_LOCATION cannot be empty.") errors in
  let errors :=
    append_if ((DEFAULT_NUM_RESULTS c <? 1) || (DEFAULT_NUM_RESULTS c >? 50))
      (lit "DEFAULT_NUM_RESULTS must be between 1 and 50.") errors in
  let errors :=
    append_if (bad_model (CLAUDE_MODEL c))
      model_message errors in
  ((length errors =? 0)%nat, errors).

(** [str(b)] for a [bool] *)
Definition bool_str (b : bool) : pystr :=
  if b then lit "True" else lit "False".

(** The status text of a key: set or missing, never the key itself.  The
    marks are the code points the source file holds. *)
Definition key_status (key : option pystr) : pystr :=
  if env_unset key then [226%N; 339%N; 8212%N] ++ lit " Missing"
  else [226%N; 339%N; 8220%N] ++ lit " Set".

(** [print_config]: the arguments of its [print] calls, in order. *)
Definition print_config (c : t) : list pystr :=
  [ nl ++ py_repeat (lit "=") 70;
    lit "JOB SEARCH AI AGENT - CONFIGURATION";
    py_repeat (lit "=") 70;
    nl ++ [240%N; 376%N; 8220%N; 8249%N] ++ lit " Job Search Settings:";
    lit "   Role: " ++ DEFAULT_JOB_ROLE c;
    lit "   Location: " ++ DEFAULT_LOCATION c;
    lit "   Number of Results: " ++ int_str (DEFAULT_NUM_RESULTS c);
    nl ++ [240%N; 376%N; 164%N; 8211%N] ++ lit " Agent Settings:";
    lit "   Model: " ++ CLAUDE_MODEL c;
    lit "   Verbose: " ++ bool_str (AGENT_VERBOSE c);
    lit "   Allow Delegation: " ++ bool_str (AGENT_ALLOW_DELEGATION c);
    nl ++ [240%N; 376%N; 8221%N; 8216%N] ++ lit " API Keys:";
    lit "   Anthropic API: " ++ key_status (ANTHROPIC_API_KEY c);
    lit "   Adzuna App ID: " ++ key_status (ADZUNA_APP_ID c);
    lit "   Adzuna API Key: " ++ key_status (ADZUNA_API_KEY c);
    nl ++ [240%N; 376%N; 8220%N; 8218%N] ++ lit " Output:";
    lit "   Directory: " ++ OUTPUT_DIR c;
    py_repeat (lit "=") 70 ++ nl ].

End Config.

(* ================================================================= *)
(** ** Saving task output ([src/tasks.py]) *)

Module Tasks.

(** The fields of [datetime.now()] that the format string reads. *)
Record datetime : Type := mkDatetime {
  year : N;
  month : N;
  day : N;
  hour : N;
  minute : N;
  second : N
}.

(** The dates the clock can return for which [%Y] has four digits. *)
Definition valid (t : datetime) : Prop :=
  (1000 <= year t <= 9999 /\ 1 <= month t <= 12 /\ 1 <= day t <= 31
   /\ hour t <= 23 /\ minute t <= 59 /\ second t <= 59)%N.

Definition digit (n : N) : N := (48 + n)%N.

(** [%m], [%d], [%H], [%M], [%S]: two digits, zero padded. *)
Definition pad2 (n : N) : pystr := [digit (n / 10); digit (n mod 10)]%N.

(** [%Y] for a year of four digits. *)
Definition pad4 (n : N) : pystr :=
  [digit (n / 1000); digit ((n / 100) mod 10); digit ((n / 10) mod 10);
   digit (n mod 10)]%N.

(** [t.strftime("%Y%m%d_%H%M%S")] *)
Definition strftime_Ymd_HMS (t : datetime) : pystr :=
  pad4 (year t) ++ pad2 (month t) ++ pad2 (day t) ++ lit "_"
  ++ pad2 (hour t) ++ pad2 (minute t) ++ pad2 (second t).

(** [get_timestamp], given what the clock reads. *)
Definition get_timestamp (now : datetime) : pystr := strftime_Ymd_HMS now.

(** The files of [OUTPUT_DIR], by name.  Text is kept as written: the
    encoding to UTF-8 and back is not modelled. *)
Definition directory : Type := pystr -> option pystr.

(** [f"{task_name}_{timestamp}.txt"] *)
Definition task_filename (task_name timestamp : pystr) : pystr :=
  task_name ++ lit "_" ++ timestamp ++ lit ".txt".

(** The five [f.write] calls of [callback], concatenated. *)
Definition task_file_content (task_name timestamp raw : pystr) : pystr :=
  (lit "Task: " ++ task_name ++ nl)
  ++ (lit "Timestamp: " ++ timestamp ++ nl)
  ++ (py_repeat (lit "=") 80 ++ nl ++ nl)
  ++ raw
  ++ (nl ++ nl ++ py_repeat (lit "=") 80 ++ nl).

(** [open(filepath, "w")] followed by the writes: the file is created or
    replaced. *)
Definition write_file (name content : pystr) (dir : directory) : directory :=
  fun n => if str_eqb n name then Some content else dir n.

(** The callback [create_task_callback(task_name)] returns, applied to an
    output whose [raw] text is [raw], at clock reading [now].  The result is
    the directory afterwards and the line printed. *)
Definition callback (task_name : pystr) (now : datetime) (raw : pystr)
  (dir : directory) : directory * pystr :=
  let timestamp := get_timestamp now in
  let filename := task_filename task_name timestamp in
  (write_file filename (task_file_content task_name timestamp raw) dir,
   [128190%N] ++ lit (" Saved ") ++ task_name ++ lit " output to: "
   ++ filename).


End Tasks.

(** Configurations and clock readings for the examples. *)
Definition example_config : Config.t :=
  Config.shipped (Some (lit "sk-one")) test_app_id test_api_key
    (lit "/work/outputs").

Definition example_config_other_keys : Config.t :=
  Config.shipped (Some (lit "sk-two")) (Some (lit "other_id"))
    (Some (lit "other_key")) (lit "/work/outputs").

Definition workshop_time : Tasks.datetime :=
  Tasks.mkDatetime 2025 10 20 18 30 5.

Definition an_hour_later : Tasks.datetime :=
  Tasks.mkDatetime 2025 10 20 19 30 5.

Definition empty_directory : Tasks.directory := fun _ => None.

(* ================================================================= *)
(** ** Lemmas on strings *)

Lemma starts_with_spec (p s : pystr) :
  starts_with p s = true <-> exists post, s = p ++ post.
Proof.
  revert s; induction p as [|a p IH]; intros s; simpl.
  - split; [intros _; now exists s | reflexivity].
  - destruct s as [|b s].
    + split; [discriminate | intros [post H]; discriminate].
    + rewrite andb_true_iff, N.eqb_eq, IH. split.
      * intros [-> [post ->]]. now exists post.
      * intros [post H]. injection H as -> ->.
        split; [reflexivity | now exists post].
Qed.

Lemma containsb_spec (needle hay : pystr) :
  containsb needle hay = true <-> substring_of needle hay.
Proof.
  unfold substring_of. induction hay as [|c hay IH].
  - simpl. rewrite orb_false_r, starts_with_spec. split.
    + intros [post H]. now exists [], post.
    + intros [pre [post H]]. destruct pre; simpl in H.
      * now exists post.
      * discriminate.
  - cbn [containsb]. rewrite orb_true_iff, starts_with_spec, IH. split.
    + intros [[post H] | [pre [post H]]].
      * now exists [], post.
      * exists (c :: pre), post. simpl. now rewrite H.
    + intros [pre [post H]]. destruct pre as [|c' pre]; simpl in H.
      * left. now exists post.
      * right. injection H as _ H. now exists pre, post.
Qed.

Lemma containsb_false (needle hay : pystr) :
  containsb needle hay = false -> ~ substring_of needle hay.
Proof.
  intros H C. apply containsb_spec in C. congruence.
Qed.

(** [strip] undoes a frame of newlines around text that neither starts nor
    ends with white space. *)
Lemma strip_framed (a b : N) (x : pystr) :
  isspace a = false -> isspace b = false ->
  strip (nl ++ (a :: x ++ [b]) ++ nl) = a :: x ++ [b].
Proof.
  intros Ha Hb. unfold strip, rstrip, nl.
  change (lstrip ([10%N] ++ (a :: x ++ [b]) ++ [10%N]))
    with (lstrip ((a :: x ++ [b]) ++ [10%N])).
  cbn [lstrip app]. rewrite Ha.
  change (a :: (x ++ [b]) ++ [10%N]) with ((a :: x ++ [b]) ++ [10%N]).
  rewrite rev_app_distr. cbn [rev app].
  change (lstrip (10%N :: (rev (x ++ [b]) ++ [a])))
    with (lstrip (rev (x ++ [b]) ++ [a])).
  rewrite rev_app_distr. cbn [rev app lstrip]. rewrite Hb.
  cbn [rev]. rewrite rev_app_distr, rev_involutive. reflexivity.
Qed.

(* ================================================================= *)
(** ** Request validator: proofs *)

Ltac case_bool b := let E := fresh "E" in destruct b eqn:E; cbn.

(** The code and the ordered list of checks agree on every dictionary. *)
Lemma validate_first_violation (d : pydict) :
  _validate_search_input d = Ok (validate_spec d).
Proof.
  unfold _validate_search_input, validate_spec, checks, required_fields.
  cbn [first_missing find violated].
  unfold dict_contains, dict_getitem, blank.
  remember (lookup (lit "role") d) as vr.
  remember (lookup (lit "location") d) as vl.
  remember (lookup (lit "num_results") d) as vn.
  destruct vr as [role|]; [|reflexivity].
  destruct vl as [location|]; [|reflexivity].
  destruct vn as [num_results|]; [|reflexivity].
  cbn [negb bind].
  destruct role as [| | | |r| |]; try reflexivity.
  cbn [not_nonempty_str is_str negb py_strip bind].
  case_bool (length (strip r) =? 0)%nat; [reflexivity|].
  destruct location as [| | | |l| |]; try reflexivity.
  cbn [not_nonempty_str is_str negb py_strip bind].
  case_bool (length (strip l) =? 0)%nat; [reflexivity|].
  destruct num_results as [|b|n| | | |]; try reflexivity.
  - destruct b; reflexivity.
  - unfold out_of_range, py_lt, py_gt. cbn [int_value bind].
    rewrite Z.gtb_ltb. case_bool (n <? 1); [reflexivity|].
    case_bool (50 <? n); reflexivity.
Qed.

(** The answer for a dictionary that has all three fields, two of them
    usable strings and the third an integer [n]. *)
Lemma validate_well_typed (d : pydict) (role location : pystr)
  (num_results : pyval) (n : Z) :
  lookup (lit "role") d = Some (PyStr role) ->
  lookup (lit "location") d = Some (PyStr location) ->
  lookup (lit "num_results") d = Some num_results ->
  (0 < length (strip role))%nat ->
  (0 < length (strip location))%nat ->
  int_value num_results = Ok n ->
  _validate_search_input d
  = Ok (if (1 <=? n) && (n <=? 50) then (true, [])
        else (false, lit "num_results must be between 1 and 50")).
Proof.
  intros Hr Hl Hn Lr Ll Hv.
  rewrite validate_first_violation.
  unfold validate_spec, checks. cbn [find violated].
  unfold dict_contains, blank. rewrite Hr, Hl, Hn. cbn [negb].
  assert (Er : (length (strip role) =? 0)%nat = false)
    by (apply Nat.eqb_neq; lia).
  assert (El : (length (strip location) =? 0)%nat = false)
    by (apply Nat.eqb_neq; lia).
  rewrite Er, El.
  destruct num_results as [|b|z| | | |]; try discriminate; cbn in Hv;
    injection Hv as Hv; subst n.
  - destruct b; reflexivity.
  - destruct (Z.ltb_spec z 1), (Z.ltb_spec 50 z), (Z.leb_spec 1 z),
      (Z.leb_spec z 50); cbn; try reflexivity; lia.
Qed.

(** C5: when [role] and [location] are strings of positive trimmed length and
    [num_results] is an integer [n], validation succeeds for every
    [1 <= n <= 50]; the boundary values 1 and 50 pass, and 0 and 51 fail the
    range check. *)
Theorem validate_accepts_range_inclusive
  (d : pydict) (role location : pystr) (num_results : pyval) (n : Z) :
  lookup (lit "role") d = Some (PyStr role) ->
  lookup (lit "location") d = Some (PyStr location) ->
  lookup (lit "num_results") d = Some num_results ->
  (0 < length (strip role))%nat ->
  (0 < length (strip location))%nat ->
  int_value num_results = Ok n ->
  (1 <= n <= 50 -> _validate_search_input d = Ok (true, []))
  /\ (n = 1 \/ n = 50 -> _validate_search_input d = Ok (true, []))
  /\ (n = 0 \/ n = 51 ->
      _validate_search_input d
      = Ok (false, lit "num_results must be between 1 and 50")).
Proof.
  intros Hr Hl Hn Lr Ll Hv.
  rewrite (validate_well_typed d role location num_results n Hr Hl Hn Lr Ll Hv).
  repeat split.
  - intros [H1 H2]. apply Z.leb_le in H1, H2. now rewrite H1, H2.
  - intros [-> | ->]; reflexivity.
  - intros [-> | ->]; reflexivity.
Qed.

(** C6: on every dictionary, whatever the types of its values, the validator
    raises nothing and returns the verdict of the first violated check in the
    order missing [role], missing [location], missing [num_results], role
    empty, location empty, [num_results] type, [num_results] range. *)
Theorem validate_never_raises_first_violation (d : pydict) :
  (forall e, _validate_search_input d <> Raise e)
  /\ _validate_search_input d = Ok (validate_spec d).
Proof.
  split.
  - intros e. rewrite validate_first_violation. discriminate.
  - apply validate_first_violation.
Qed.

(** C10: [True] passes the integer type check, compares as 1, and a request
    with usable [role] and [location] and [num_results = True] is valid. *)
Theorem validate_accepts_True (d : pydict) (role location : pystr) :
  lookup (lit "role") d = Some (PyStr role) ->
  lookup (lit "location") d = Some (PyStr location) ->
  lookup (lit "num_results") d = Some (PyBool true) ->
  (0 < length (strip role))%nat ->
  (0 < length (strip location))%nat ->
  is_int (PyBool true) = true
  /\ int_value (PyBool true) = Ok 1
  /\ _validate_search_input d = Ok (true, []).
Proof.
  intros Hr Hl Hn Lr Ll. split; [reflexivity|]. split; [reflexivity|].
  now rewrite (validate_well_typed d role location (PyBool true) 1).
Qed.

(* ================================================================= *)
(** ** Resilient fetcher: proofs *)

Lemma retry_loop_step (url : pystr) (max_retries timeout : Z)
  (attempt : nat) (attempts : list nat) (w : world) :
  retry_loop url max_retries timeout (attempt :: attempts) w
  = let w1 := mkWorld (server w) (requests_sent w ++ [url]) (sleeps w) in
    let again :=
      retry_loop url max_retries timeout attempts
        (time_sleep API_RETRY_DELAY w1) in
    match server w (length (requests_sent w)) url timeout with
    | Response status_code json =>
        if raises_for_status status_code then
          if status_code =? 429 then again
          else if status_code >=? 500 then again
          else (PyNone, w1)
        else match json with
             | Some payload => (payload, w1)
             | None => (PyNone, w1)
             end
    | Timeout | ConnectionError =>
        if Z.of_nat attempt <? max_retries - 1 then again else (PyNone, w1)
    | RequestException => (PyNone, w1)
    end.
Proof. reflexivity. Qed.

Ltac loop_cases o :=
  destruct o as [status_code [payload|] | | |];
  [ destruct (raises_for_status status_code) eqn:?;
    [ destruct (status_code =? 429) eqn:?;
      [ | destruct (status_code >=? 500) eqn:? ] | ]
  | destruct (raises_for_status status_code) eqn:?;
    [ destruct (status_code =? 429) eqn:?;
      [ | destruct (status_code >=? 500) eqn:? ] | ]
  | match goal with |- context [?a <? ?b] => destruct (a <? b) eqn:? end
  | match goal with |- context [?a <? ?b] => destruct (a <? b) eqn:? end
  | ].

(** Every request of the loop goes to [url], and there is at most one per
    attempt number. *)
Lemma retry_loop_requests (url : pystr) (max_retries timeout : Z)
  (attempts : list nat) :
  forall w, exists k,
    (k <= length attempts)%nat /\
    requests_sent (snd (retry_loop url max_retries timeout attempts w))
    = requests_sent w ++ repeat url k.
Proof.
  induction attempts as [|attempt attempts IH]; intros w.
  - exists 0%nat. cbn. now rewrite app_nil_r.
  - rewrite retry_loop_step. cbv zeta.
    pose proof (IH (time_sleep API_RETRY_DELAY
                      (mkWorld (server w) (requests_sent w ++ [url])
                         (sleeps w)))) as [k [Hk Hreq]].
    cbn [time_sleep requests_sent server sleeps] in Hreq.
    rewrite <- app_assoc in Hreq.
    loop_cases (server w (length (requests_sent w)) url timeout);
      first [ exists (S k); split; [cbn; lia | exact Hreq]
            | exists 1%nat; split; [cbn; lia | reflexivity] ].
Qed.

(** When no attempt within the budget succeeds, the loop returns [None]. *)
Lemma retry_loop_all_fail (url : pystr) (max_retries timeout : Z)
  (attempts : list nat) :
  forall w,
    (forall i, (i < length attempts)%nat ->
       parsed_payload
         (server w (length (requests_sent w) + i)%nat url timeout) = None) ->
    fst (retry_loop url max_retries timeout attempts w) = PyNone.
Proof.
  induction attempts as [|attempt attempts IH]; intros w H.
  - reflexivity.
  - rewrite retry_loop_step. cbv zeta.
    assert (Hrest :
      fst (retry_loop url max_retries timeout attempts
             (time_sleep API_RETRY_DELAY
                (mkWorld (server w) (requests_sent w ++ [url]) (sleeps w))))
      = PyNone).
    { apply IH. intros i Hi.
      cbn [time_sleep requests_sent server]. rewrite length_app. cbn [length].
      replace (length (requests_sent w) + 1 + i)%nat
        with (length (requests_sent w) + S i)%nat by lia.
      apply H. cbn. lia. }
    pose proof (H 0%nat ltac:(cbn; lia)) as H0.
    rewrite Nat.add_0_r in H0.
    destruct (server w (length (requests_sent w)) url timeout)
      as [status_code [payload|] | | |]; cbn [parsed_payload] in H0.
    + destruct (raises_for_status status_code); [|discriminate].
      destruct (status_code =? 429); [exact Hrest|].
      destruct (status_code >=? 500); [exact Hrest | reflexivity].
    + destruct (raises_for_status status_code); [|reflexivity].
      destruct (status_code =? 429); [exact Hrest|].
      destruct (status_code >=? 500); [exact Hrest | reflexivity].
    + destruct (Z.of_nat attempt <? max_retries - 1);
        [exact Hrest | reflexivity].
    + destruct (Z.of_nat attempt <? max_retries - 1);
        [exact Hrest | reflexivity].
    + reflexivity.
Qed.

(** The branch taken on status 429: [raise_for_status] raises, then retry. *)
Ltac status_429 :=
  cbn [raises_for_status Z.leb Z.ltb Z.compare Pos.compare Pos.compare_cont
         andb Z.eqb Pos.eqb].

Lemma seq_budget_pos (max_retries : Z) :
  1 <= max_retries ->
  seq 0 (Z.to_nat max_retries)
  = 0%nat :: seq 1 (Z.to_nat (max_retries - 1)).
Proof.
  intros H. replace (Z.to_nat max_retries)
    with (S (Z.to_nat (max_retries - 1))) by lia.
  reflexivity.
Qed.

Lemma seq_budget_three (max_retries : Z) :
  3 <= max_retries ->
  seq 0 (Z.to_nat max_retries)
  = 0%nat :: 1%nat :: 2%nat :: seq 3 (Z.to_nat (max_retries - 3)).
Proof.
  intros H. replace (Z.to_nat max_retries)
    with (S (S (S (Z.to_nat (max_retries - 3))))) by lia.
  reflexivity.
Qed.

(** C7: when the first attempt meets a 4xx status other than 429, the fetcher
    returns [None] after that one request, without sleeping or retrying. *)
Theorem fetch_client_error_no_retry
  (url : pystr) (max_retries timeout : Z) (w : world)
  (status_code : Z) (json : option pyval) :
  1 <= max_retries ->
  server w (length (requests_sent w)) url timeout
  = Response status_code json ->
  400 <= status_code < 500 ->
  status_code <> 429 ->
  _make_api_request_with_retry url max_retries timeout w
  = (PyNone, mkWorld (server w) (requests_sent w ++ [url]) (sleeps w)).
Proof.
  intros Hmax Hresp Hrange Hne.
  unfold _make_api_request_with_retry.
  rewrite (seq_budget_pos max_retries Hmax), retry_loop_step. cbv zeta.
  rewrite Hresp.
  assert (E1 : raises_for_status status_code = true).
  { unfold raises_for_status. apply andb_true_iff.
    split; [apply Z.leb_le | apply Z.ltb_lt]; lia. }
  assert (E2 : (status_code =? 429) = false) by (apply Z.eqb_neq; exact Hne).
  assert (E3 : (status_code >=? 500) = false).
  { rewrite Z.geb_leb. apply Z.leb_gt. lia. }
  now rewrite E1, E2, E3.
Qed.

(** C8: the fetcher sends at most [max_retries] requests; two 429 answers
    followed by a response that parses yield that payload on the third
    request; and when no attempt within the budget succeeds the result is
    [None]. *)
Theorem fetch_retry_budget
  (url : pystr) (max_retries timeout : Z) (w : world) :
  (length (requests_sent
             (snd (_make_api_request_with_retry url max_retries timeout w)))
   <= length (requests_sent w) + Z.to_nat max_retries)%nat
  /\ (forall j0 j1 status_code payload,
        3 <= max_retries ->
        server w (length (requests_sent w)) url timeout = Response 429 j0 ->
        server w (S (length (requests_sent w))) url timeout
        = Response 429 j1 ->
        server w (S (S (length (requests_sent w)))) url timeout
        = Response status_code (Some payload) ->
        raises_for_status status_code = false ->
        _make_api_request_with_retry url max_retries timeout w
        = (payload,
           mkWorld (server w) (requests_sent w ++ [url; url; url])
             (sleeps w ++ [API_RETRY_DELAY; API_RETRY_DELAY])))
  /\ ((forall i, (i < Z.to_nat max_retries)%nat ->
         parsed_payload
           (server w (length (requests_sent w) + i)%nat url timeout) = None) ->
      fst (_make_api_request_with_retry url max_retries timeout w) = PyNone).
Proof.
  unfold _make_api_request_with_retry. split; [|split].
  - destruct (retry_loop_requests url max_retries timeout
                (seq 0 (Z.to_nat max_retries)) w) as [k [Hk ->]].
    rewrite length_seq in Hk. rewrite length_app, repeat_length. lia.
  - intros j0 j1 status_code payload Hmax H0 H1 H2 Hok.
    rewrite (seq_budget_three max_retries Hmax).
    rewrite retry_loop_step. cbv zeta. rewrite H0. status_429.
    rewrite retry_loop_step. cbv zeta.
    cbn [time_sleep server requests_sent sleeps].
    rewrite length_app, Nat.add_1_r, H1. status_429.
    rewrite retry_loop_step. cbv zeta.
    cbn [time_sleep server requests_sent sleeps].
    rewrite !length_app. cbn [length]. rewrite !Nat.add_1_r, H2, Hok.
    rewrite <- !app_assoc. reflexivity.
  - intros H. apply retry_loop_all_fail. now rewrite length_seq.
Qed.

(* ================================================================= *)
(** ** Listing formatter: proofs *)

Lemma bind_Ok_inv {A B : Type} (m : result A) (k : A -> result B) (b : B) :
  bind m k = Ok b -> exists a, m = Ok a /\ k a = Ok b.
Proof.
  destruct m as [a|e]; cbn; [|discriminate]. intros H. now exists a.
Qed.

Lemma py_join_cons (sep x : pystr) (xs : list pystr) :
  xs <> [] -> py_join sep (x :: xs) = x ++ sep ++ py_join sep xs.
Proof. destruct xs; [congruence | reflexivity]. Qed.

Lemma py_join_snoc (sep y : pystr) (xs : list pystr) :
  xs <> [] -> py_join sep (xs ++ [y]) = py_join sep xs ++ sep ++ y.
Proof.
  induction xs as [|x xs IH]; [congruence|]. intros _.
  destruct xs as [|x' xs]; [reflexivity|].
  change ((x :: x' :: xs) ++ [y]) with (x :: (x' :: xs) ++ [y]).
  rewrite !py_join_cons by discriminate.
  rewrite IH by discriminate. now rewrite <- !app_assoc.
Qed.

(** Every line of a text is a substring of the text. *)
Lemma line_substring (l : pystr) (ls : list pystr) :
  In l ls -> substring_of l (lines ls).
Proof.
  unfold lines. induction ls as [|x ls IH]; [contradiction|].
  destruct ls as [|x' ls].
  - intros [-> | []]. exists [], []. cbn. now rewrite app_nil_r.
  - intros [-> | H].
    + rewrite py_join_cons by discriminate.
      exists [], (nl ++ py_join nl (x' :: ls)). reflexivity.
    + destruct (IH H) as [pre [post E]].
      rewrite py_join_cons by discriminate. rewrite E.
      exists (x ++ nl ++ pre), post. now rewrite <- !app_assoc.
Qed.

Lemma substring_of_trans (a b c : pystr) :
  substring_of a b -> substring_of b c -> substring_of a c.
Proof.
  intros [p1 [q1 ->]] [p2 [q2 ->]].
  exists (p2 ++ p1), (q1 ++ q2). now rewrite <- !app_assoc.
Qed.

(** A text whose first line starts with [a], whose last line ends with [b],
    framed by a blank line on either side. *)
Lemma lines_framed (a b : N) (first last : pystr) (mid : list pystr) :
  exists x,
    lines ((a :: first) :: mid ++ [last ++ [b]]) = a :: x ++ [b]
    /\ lines ([] :: ((a :: first) :: mid ++ [last ++ [b]]) ++ [[]])
       = nl ++ (a :: x ++ [b]) ++ nl.
Proof.
  unfold lines.
  assert (E : py_join nl ((a :: first) :: mid ++ [last ++ [b]])
              = a :: (first ++ py_join nl ([] :: mid ++ [last])) ++ [b]).
  { rewrite py_join_cons by (destruct mid; discriminate).
    destruct mid as [|m mid].
    - cbn [app py_join]. now rewrite <- !app_assoc.
    - rewrite (py_join_snoc nl (last ++ [b]) (m :: mid)) by discriminate.
      rewrite (py_join_cons nl [] ((m :: mid) ++ [last]))
        by (cbn [app]; discriminate).
      rewrite (py_join_snoc nl last (m :: mid)) by discriminate.
      cbn [app]. now rewrite <- !app_assoc. }
  eexists. split; [exact E|].
  rewrite py_join_cons by discriminate.
  rewrite py_join_snoc by discriminate. rewrite E. reflexivity.
Qed.

Lemma job_block_head : lit "<job>" = 60%N :: lit "job>".
Proof. reflexivity. Qed.

Lemma job_block_tail : lit "</job>" = lit "</job" ++ [62%N].
Proof. reflexivity. Qed.

(** [strip] removes the two blank lines of the template and nothing else,
    whatever the field values are. *)
Lemma strip_job_template
  (title company location salary created description url : pystr) :
  strip (job_template title company location salary created description url)
  = job_block title company location salary created description url.
Proof.
  unfold job_template, job_block.
  rewrite job_block_head, job_block_tail.
  match goal with
  | |- context [lines ((?a :: ?f) :: ?m1 :: ?m2 :: ?m3 :: ?m4 :: ?m5 :: ?m6
                         :: ?m7 :: ?m8 :: ?m9 :: [?l ++ [?b]])] =>
      destruct (lines_framed a b f l [m1; m2; m3; m4; m5; m6; m7; m8; m9])
        as [x [E1 E2]]
  end.
  cbn [app] in E1, E2. rewrite E1, E2.
  now apply strip_framed.
Qed.

Lemma salary_line (salary : pystr) :
  substring_of (lit "<salary>" ++ salary ++ lit "</salary>")
    (lit "    <salary>" ++ salary ++ lit "</salary>").
Proof. exists (lit "    "), []. now rewrite app_nil_r. Qed.

Lemma job_block_salary
  (title company location salary created description url : pystr) :
  substring_of (lit "<salary>" ++ salary ++ lit "</salary>")
    (job_block title company location salary created description url).
Proof.
  eapply substring_of_trans; [apply salary_line|].
  apply line_substring. do 4 right. left. reflexivity.
Qed.

Example thousands_groups :
  thousands 999 = lit "999" /\ thousands 1000 = lit "1,000"
  /\ thousands 1234567 = lit "1,234,567".
Proof. repeat split. Qed.

Example format_comma_0f_rounds_half_even :
  format_comma_0f (PyFloat (S754_finite false 5 (-1))) = Ok (lit "2")
  /\ format_comma_0f (PyFloat (S754_finite false 7 (-1))) = Ok (lit "4")
  /\ format_comma_0f (PyInt (2 ^ 53 + 1)) = Ok (lit "9,007,199,254,740,992")
  /\ format_comma_0f (PyInt (2 ^ 1024)) = Raise OverflowError
  /\ format_comma_0f (PyStr (lit "50k")) = Raise ValueError.
Proof. repeat split. Qed.

(** Integers of magnitude below [2^53] are floats exactly, so [,.0f] prints
    their own digits, grouped by thousands. *)
Lemma format_comma_0f_exact_int (z : Z) :
  Z.abs z < 2 ^ 53 ->
  format_comma_0f (PyInt z)
  = Ok ((if z <? 0 then lit "-" else []) ++ thousands (Z.abs_N z)).
Proof.
  intros Hz. cbn [format_comma_0f]. unfold float_of_int. cbv zeta.
  assert (Hk : (Z.log2 (Z.abs z) - 52 <=? 0) = true).
  { apply Z.leb_le. destruct (Z.eq_dec (Z.abs z) 0) as [-> | Hne].
    - cbn. lia.
    - assert (Z.log2 (Z.abs z) < 53) by (apply Z.log2_lt_pow2; lia). lia. }
  rewrite Hk.
  assert (Hbig : (2 ^ 1024 <=? Z.abs z) = false).
  { apply Z.leb_gt. eapply Z.lt_trans; [exact Hz|]. reflexivity. }
  rewrite Hbig.
  destruct z as [|p|p]; cbn [Z.abs bind format_float_comma_0f Z.ltb Z.compare].
  - reflexivity.
  - unfold float_round. cbn [Z.leb Z.compare Z.pow Z.pow_pos Pos.iter].
    now rewrite Z.mul_1_r.
  - unfold float_round. cbn [Z.leb Z.compare Z.pow Z.pow_pos Pos.iter].
    now rewrite Z.mul_1_r.
Qed.

Section FormatterProofs.

Variable float_repr : spec_float -> pystr.
Variable str_repr : pystr -> pystr.

Local Abbreviation format_job := (_format_job_listing float_repr str_repr).
Local Abbreviation str := (py_str float_repr str_repr).

(** What a successful call on a dictionary has computed. *)
Lemma format_job_listing_inv (job : pydict) (out : pystr) :
  format_job (PyDict job) = Ok out ->
  exists company location salary description,
    py_get (dict_get job (lit "company") (PyDict []))
      (lit "display_name") (PyStr (lit "N/A")) = Ok company
    /\ py_get (dict_get job (lit "location") (PyDict []))
         (lit "display_name") (PyStr (lit "N/A")) = Ok location
    /\ salary_info (dict_get job (lit "salary_min") PyNone)
         (dict_get job (lit "salary_max") PyNone) = Ok salary
    /\ truncate_description
         (dict_get job (lit "description")
            (PyStr (lit "No description available"))) = Ok description
    /\ out
       = job_block
           (str (dict_get job (lit "title") (PyStr (lit "N/A"))))
           (str company) (str location) salary
           (str (dict_get job (lit "created") (PyStr (lit "N/A"))))
           (str description)
           (str (dict_get job (lit "redirect_url") (PyStr (lit "N/A")))).
Proof.
  unfold _format_job_listing.
  cbn [py_get bind]. intros H.
  apply bind_Ok_inv in H as [company [Hc H]].
  apply bind_Ok_inv in H as [location [Hl H]].
  apply bind_Ok_inv in H as [salary [Hs H]].
  apply bind_Ok_inv in H as [description [Hd H]].
  injection H as <-. rewrite strip_job_template.
  now exists company, location, salary, description.
Qed.

(** C2 (amended): whenever the formatter returns, the salary field is chosen
    by the truth value of [salary_min] and [salary_max] (absent, null and zero
    all count as not given): both given, ["$<min> - $<max>"]; only the minimum,
    ["From $<min>"]; only the maximum, ["Up to $<max>"]; neither,
    ["Not specified"].  Each number is rendered by [,.0f], which for an integer
    below [2^53] in magnitude is its digits grouped by thousands.  With 120000
    and 180000 the output contains ["$120,000 - $180,000"]. *)
Theorem format_salary_by_truth_value (job : pydict) (out : pystr) :
  format_job (PyDict job) = Ok out ->
  (exists text,
     substring_of (lit "<salary>" ++ text ++ lit "</salary>") out
     /\ match truthy (dict_get job (lit "salary_min") PyNone),
              truthy (dict_get job (lit "salary_max") PyNone) with
        | true, true =>
            exists lo hi,
              format_comma_0f (dict_get job (lit "salary_min") PyNone) = Ok lo
              /\ format_comma_0f (dict_get job (lit "salary_max") PyNone)
                 = Ok hi
              /\ text = lit "$" ++ lo ++ lit " - $" ++ hi
        | true, false =>
            exists lo,
              format_comma_0f (dict_get job (lit "salary_min") PyNone) = Ok lo
              /\ text = lit "From $" ++ lo
        | false, true =>
            exists hi,
              format_comma_0f (dict_get job (lit "salary_max") PyNone) = Ok hi
              /\ text = lit "Up to $" ++ hi
        | false, false => text = lit "Not specified"
        end)
  /\ (forall z, Z.abs z < 2 ^ 53 ->
        format_comma_0f (PyInt z)
        = Ok ((if z <? 0 then lit "-" else []) ++ thousands (Z.abs_N z)))
  /\ (dict_get job (lit "salary_min") PyNone = PyInt 120000 ->
      dict_get job (lit "salary_max") PyNone = PyInt 180000 ->
      substring_of (lit "$120,000 - $180,000") out).
Proof.
  intros H.
  destruct (format_job_listing_inv job out H)
    as [company [location [salary [description [_ [_ [Hs [_ ->]]]]]]]].
  split; [|split].
  - exists salary. split; [apply job_block_salary|].
    unfold salary_info in Hs.
    destruct (truthy (dict_get job (lit "salary_min") PyNone));
      destruct (truthy (dict_get job (lit "salary_max") PyNone));
      cbn [andb] in Hs.
    + apply bind_Ok_inv in Hs as [lo [Hlo Hs]].
      apply bind_Ok_inv in Hs as [hi [Hhi Hs]].
      injection Hs as <-. now exists lo, hi.
    + apply bind_Ok_inv in Hs as [lo [Hlo Hs]].
      injection Hs as <-. now exists lo.
    + apply bind_Ok_inv in Hs as [hi [Hhi Hs]].
      injection Hs as <-. now exists hi.
    + now injection Hs as <-.
  - exact format_comma_0f_exact_int.
  - intros Hmin Hmax. rewrite Hmin, Hmax in Hs.
    assert (E : salary = lit "$120,000 - $180,000").
    { vm_compute in Hs. injection Hs as <-. reflexivity. }
    subst salary.
    eapply substring_of_trans; [|apply job_block_salary].
    exists (lit "<salary>"), (lit "</salary>"). reflexivity.
Qed.

(** C3: a listing whose [company] or [location] is null makes the formatter
    raise [AttributeError], and one whose [description] is null makes it raise
    [TypeError]; no string is returned. *)
Theorem format_null_fields_raise :
  format_job (PyDict [(lit "company", PyNone)]) = Raise AttributeError
  /\ format_job (PyDict [(lit "location", PyNone)]) = Raise AttributeError
  /\ format_job (PyDict [(lit "description", PyNone)]) = Raise TypeError.
Proof. repeat split; vm_compute; reflexivity. Qed.

(** The part of the default chase that holds: absent keys, at either level,
    resolve to the defaults. *)
Lemma format_absent_fields_default :
  format_job (PyDict [])
  = Ok (job_block (lit "N/A") (lit "N/A") (lit "N/A") (lit "Not specified")
          (lit "N/A") (lit "No description available") (lit "N/A"))
  /\ format_job (PyDict [(lit "company", PyDict []);
                         (lit "location", PyDict [])])
     = format_job (PyDict []).
Proof. split; vm_compute; reflexivity. Qed.

Lemma truncate_description_str (s : pystr) :
  truncate_description (PyStr s) = Ok (PyStr (shown_description s)).
Proof.
  unfold truncate_description, shown_description, max_description_length.
  cbn [py_len bind]. now destruct (500 <? length s)%nat.
Qed.


Lemma format_comma_0f_plain (v : pyval) :
  plain_number v = true -> truthy v = true ->
  exists s, format_comma_0f v = Ok s.
Proof.
  destruct v as [|b|z|f| | |]; try discriminate; intros Hp Ht.
  - destruct b; [|discriminate]. eexists. reflexivity.
  - apply Z.ltb_lt in Hp. rewrite format_comma_0f_exact_int by exact Hp.
    eexists. reflexivity.
  - eexists. reflexivity.
Qed.

Lemma salary_info_returns (salary_min salary_max : pyval) :
  plain_number salary_min = true -> plain_number salary_max = true ->
  exists s, salary_info salary_min salary_max = Ok s.
Proof.
  intros Hmin Hmax. unfold salary_info.
  destruct (truthy salary_min) eqn:Tmin; destruct (truthy salary_max) eqn:Tmax;
    cbn [andb].
  - destruct (format_comma_0f_plain salary_min Hmin Tmin) as [lo ->].
    destruct (format_comma_0f_plain salary_max Hmax Tmax) as [hi ->].
    eexists. reflexivity.
  - destruct (format_comma_0f_plain salary_min Hmin Tmin) as [lo ->].
    eexists. reflexivity.
  - destruct (format_comma_0f_plain salary_max Hmax Tmax) as [hi ->].
    eexists. reflexivity.
  - eexists. reflexivity.
Qed.

(** The formatter returns on every dictionary whose [company] and [location]
    are absent or dictionaries, whose [description] is absent or a string and
    whose salary bounds are absent or plain numbers; the other fields may hold
    anything. *)
Lemma format_job_listing_returns (job : pydict) :
  (exists c, dict_get job (lit "company") (PyDict []) = PyDict c) ->
  (exists l, dict_get job (lit "location") (PyDict []) = PyDict l) ->
  (exists s, dict_get job (lit "description")
               (PyStr (lit "No description available")) = PyStr s) ->
  plain_number (dict_get job (lit "salary_min") PyNone) = true ->
  plain_number (dict_get job (lit "salary_max") PyNone) = true ->
  exists out, format_job (PyDict job) = Ok out.
Proof.
  intros [c Hc] [l Hl] [s Hd] Hmin Hmax.
  destruct (salary_info_returns _ _ Hmin Hmax) as [salary Hs].
  unfold _format_job_listing. cbn [py_get bind].
  rewrite Hc, Hl, Hd, Hs. cbn [py_get bind].
  rewrite truncate_description_str. cbn [bind]. eexists. reflexivity.
Qed.

End FormatterProofs.

(* ================================================================= *)
(** ** The tool: proofs *)

(** *** The texts the tool returns *)

(** The invalid-input text carries its error line and quotes the
    validator's message on a line of its own. *)
Lemma invalid_input_message_quotes (error_message : pystr) :
  substring_of ([10060%N] ++ lit " ERROR: Invalid input parameters.")
    (invalid_input_message error_message)
  /\ substring_of error_message (invalid_input_message error_message).
Proof.
  unfold invalid_input_message. split; apply line_substring.
  - right. left. reflexivity.
  - do 3 right. left. reflexivity.
Qed.

(** The "no results" text names the role and the location searched. *)
Lemma no_results_message_names (role location : pystr) :
  substring_of
    (lit "No job listings found for '" ++ role ++ lit "' in " ++ location
       ++ lit ".")
    (no_results_message role location)
  /\ substring_of role (no_results_message role location)
  /\ substring_of location (no_results_message role location)
  /\ substring_of (lit "Suggestions:") (no_results_message role location).
Proof.
  assert (S : substring_of
                (lit "No job listings found for '" ++ role ++ lit "' in "
                   ++ location ++ lit ".")
                (no_results_message role location)).
  { apply substring_of_trans
      with (b := [8505%N; 65039%N] ++ lit "  No job listings found for '"
                   ++ role ++ lit "' in " ++ location ++ lit ".").
    - exists ([8505%N; 65039%N] ++ lit "  "), [].
      change (lit "  No job listings found for '")
        with (lit "  " ++ lit "No job listings found for '").
      rewrite app_nil_r. now rewrite <- !app_assoc.
    - unfold no_results_message. apply line_substring.
      right. left. reflexivity. }
  split; [exact S|]. split; [|split].
  - apply substring_of_trans with (2 := S).
    exists (lit "No job listings found for '"),
           (lit "' in " ++ location ++ lit ".").
    reflexivity.
  - apply substring_of_trans with (2 := S).
    exists (lit "No job listings found for '" ++ role ++ lit "' in "),
           (lit ".").
    now rewrite <- !app_assoc.
  - unfold no_results_message. apply line_substring.
    do 3 right. left. reflexivity.
Qed.



Section ToolProofs.

Variable float_repr : spec_float -> pystr.
Variable str_repr : pystr -> pystr.
Variable ADZUNA_APP_ID : option pystr.
Variable ADZUNA_API_KEY : option pystr.

Local Abbreviation format_job := (_format_job_listing float_repr str_repr).
Local Abbreviation str := (py_str float_repr str_repr).
Local Abbreviation tool :=
  (search_jobs float_repr str_repr ADZUNA_APP_ID ADZUNA_API_KEY).
Local Abbreviation url_of :=
  (search_url float_repr str_repr ADZUNA_APP_ID ADZUNA_API_KEY).

(** Steps 1 to 4 on a valid request with credentials and a payload. *)
Lemma search_jobs_after_fetch
  (role location num_results jobs_data : pyval) (w w1 : world) :
  _validate_search_input (request role location num_results) = Ok (true, []) ->
  env_unset ADZUNA_APP_ID = false ->
  env_unset ADZUNA_API_KEY = false ->
  _make_api_request_with_retry (url_of role location num_results)
    API_MAX_RETRIES API_TIMEOUT w = (jobs_data, w1) ->
  jobs_data <> PyNone ->
  tool role location num_results w
  = (format_results float_repr str_repr jobs_data role location, w1).
Proof.
  intros Hvalid Hid Hkey Hfetch Hsome.
  unfold search_jobs. unfold request in Hvalid. rewrite Hvalid.
  cbn [negb]. rewrite Hid, Hkey. cbn [orb]. rewrite Hfetch.
  destruct jobs_data; [congruence | reflexivity ..].
Qed.

(** Step 5 on a payload whose [results] is a non-empty list: the summary block
    is the separator handed to [join]. *)
Lemma format_results_joined
  (d : pydict) (role location : pyval) (job : pyval) (jobs : list pyval)
  (formatted_jobs : list pystr) :
  lookup (lit "results") d = Some (PyList (job :: jobs)) ->
  format_jobs float_repr str_repr 1 (S (length jobs)) (job :: jobs)
  = Ok formatted_jobs ->
  format_results float_repr str_repr (PyDict d) role location
  = Ok (py_join
          (summary_block (S (length jobs))
             (str (dict_get d (lit "count")
                     (PyInt (Z.of_nat (S (length jobs))))))
             (str role) (str location))
          formatted_jobs).
Proof.
  intros Hres Hfs.
  assert (E : dict_get d (lit "results") (PyList []) = PyList (job :: jobs))
    by (unfold dict_get; now rewrite Hres).
  unfold format_results. cbn [py_get bind]. rewrite E.
  cbn [truthy negb py_len bind length Nat.eqb py_iter].
  rewrite Hfs. reflexivity.
Qed.


(** C1: when the fetch succeeds with N >= 1 listings, the tool returns the
    numbered listings joined by the summary block: the summary is the
    separator between consecutive listings, not a prefix, and with a single
    listing the output is that listing alone, with no summary line. *)
Theorem search_jobs_summary_is_separator
  (role location num_results : pyval) (w w1 : world) (d : pydict)
  (job : pyval) (jobs : list pyval) (formatted_jobs : list pystr) :
  _validate_search_input (request role location num_results) = Ok (true, []) ->
  env_unset ADZUNA_APP_ID = false ->
  env_unset ADZUNA_API_KEY = false ->
  _make_api_request_with_retry (url_of role location num_results)
    API_MAX_RETRIES API_TIMEOUT w = (PyDict d, w1) ->
  lookup (lit "results") d = Some (PyList (job :: jobs)) ->
  format_jobs float_repr str_repr 1 (S (length jobs)) (job :: jobs)
  = Ok formatted_jobs ->
  tool role location num_results w
  = (Ok (py_join
           (summary_block (S (length jobs))
              (str (dict_get d (lit "count")
                      (PyInt (Z.of_nat (S (length jobs))))))
              (str role) (str location))
           formatted_jobs), w1)
  /\ (jobs = [] ->
      exists formatted_job,
        format_job job = Ok formatted_job
        /\ tool role location num_results w
           = (Ok (numbered 1 1 formatted_job), w1)).
Proof.
  intros Hvalid Hid Hkey Hfetch Hres Hfs.
  rewrite (search_jobs_after_fetch role location num_results (PyDict d) w w1)
    by (assumption || discriminate).
  rewrite (format_results_joined d role location job jobs formatted_jobs)
    by assumption.
  split; [reflexivity|].
  intros ->. cbn [format_jobs length] in Hfs.
  apply bind_Ok_inv in Hfs as [formatted_job [Hjob Hfs]].
  cbn [bind] in Hfs. injection Hfs as <-.
  exists formatted_job. split; [exact Hjob | reflexivity].
Qed.


End ToolProofs.

(* ================================================================= *)
(** ** The theorems at concrete inputs *)

Ltac by_computation := vm_compute; reflexivity.
Ltac side_condition :=
  first [ reflexivity | lia | discriminate | vm_compute; lia ].

Lemma validate_accepts_range_inclusive_witness :
  _validate_search_input example_request = Ok (true, []).
Proof.
  refine (proj1 (validate_accepts_range_inclusive example_request
                   (lit "Data Scientist") (lit "Los Angeles") (PyInt 50) 50
                   _ _ _ _ _ _) _);
    side_condition.
Defined.

Lemma validate_accepts_True_witness :
  _validate_search_input example_request_True = Ok (true, []).
Proof.
  refine (proj2 (proj2 (validate_accepts_True example_request_True
                          (lit "Data Scientist") (lit "Los Angeles")
                          _ _ _ _ _)));
    side_condition.
Defined.

Lemma fetch_client_error_no_retry_witness :
  _make_api_request_with_retry example_url API_MAX_RETRIES API_TIMEOUT
    not_found_world
  = (PyNone,
     mkWorld (server not_found_world)
       (requests_sent not_found_world ++ [example_url])
       (sleeps not_found_world)).
Proof.
  refine (fetch_client_error_no_retry example_url API_MAX_RETRIES API_TIMEOUT
            not_found_world 404 None _ _ _ _);
    side_condition.
Defined.

Lemma fetch_retry_budget_witness :
  _make_api_request_with_retry example_url API_MAX_RETRIES API_TIMEOUT
    rate_limited_twice_world
  = (PyDict one_listing_payload,
     mkWorld (server rate_limited_twice_world)
       (requests_sent rate_limited_twice_world
        ++ [example_url; example_url; example_url])
       (sleeps rate_limited_twice_world
        ++ [API_RETRY_DELAY; API_RETRY_DELAY]))
  /\ fst (_make_api_request_with_retry example_url API_MAX_RETRIES
            API_TIMEOUT always_rate_limited_world) = PyNone.
Proof.
  split.
  - refine (proj1 (proj2 (fetch_retry_budget example_url API_MAX_RETRIES
                            API_TIMEOUT rate_limited_twice_world))
              None None 200 (PyDict one_listing_payload) _ _ _ _ _);
      side_condition.
  - refine (proj2 (proj2 (fetch_retry_budget example_url API_MAX_RETRIES
                            API_TIMEOUT always_rate_limited_world)) _).
    intros i _. reflexivity.
Defined.

Lemma format_salary_by_truth_value_witness :
  substring_of (lit "$120,000 - $180,000")
    (job_block (lit "N/A") (lit "N/A") (lit "N/A")
       (lit "$120,000 - $180,000") (lit "N/A")
       (lit "No description available") (lit "N/A")).
Proof.
  refine (proj2 (proj2 (format_salary_by_truth_value ex_float_repr
                          ex_str_repr salary_job _ _)) _ _);
    by_computation.
Defined.


(** A listing with [salary_min = 0] and [salary_max = 50000] has both fields
    present, yet its salary reads ["Up to $50,000"]: the output contains
    neither ["$0 - $50,000"] nor ["$0"]. *)
Lemma salary_zero_minimum_counterexample :
  lookup (lit "salary_min") zero_min_job = Some (PyInt 0)
  /\ lookup (lit "salary_max") zero_min_job = Some (PyInt 50000)
  /\ exists out,
       _format_job_listing ex_float_repr ex_str_repr (PyDict zero_min_job)
       = Ok out
       /\ ~ substring_of (lit "$0 - $50,000") out
       /\ ~ substring_of (lit "$0") out
       /\ substring_of (lit "<salary>Up to $50,000</salary>") out.
Proof.
  split; [reflexivity|]. split; [reflexivity|].
  exists (job_block (lit "N/A") (lit "N/A") (lit "N/A")
            (lit "Up to $50,000") (lit "N/A")
            (lit "No description available") (lit "N/A")).
  split; [by_computation|]. split; [|split].
  - apply containsb_false. by_computation.
  - apply containsb_false. by_computation.
  - apply containsb_spec. by_computation.
Qed.

Lemma search_jobs_summary_is_separator_witness :
  search_jobs ex_float_repr ex_str_repr test_app_id test_api_key
    (PyStr (lit "Data Scientist")) (PyStr (lit "Los Angeles")) (PyInt 1)
    one_listing_world
  = (Ok (numbered 1 1 listing_1_formatted),
     mkWorld (server one_listing_world) [example_url] [])
  /\ ~ substring_of (lit "Successfully found")
         (numbered 1 1 listing_1_formatted)
  /\ ~ substring_of (lit "total matches") (numbered 1 1 listing_1_formatted).
Proof.
  split; [|split].
  - refine (proj1 (search_jobs_summary_is_separator ex_float_repr ex_str_repr
                     test_app_id test_api_key
                     (PyStr (lit "Data Scientist"))
                     (PyStr (lit "Los Angeles")) (PyInt 1)
                     one_listing_world
                     (mkWorld (server one_listing_world) [example_url] [])
                     one_listing_payload listing_1 []
                     [numbered 1 1 listing_1_formatted] _ _ _ _ _ _));
      by_computation.
  - apply containsb_false. by_computation.
  - apply containsb_false. by_computation.
Defined.


(* ================================================================= *)
(** ** Resilient fetcher: further properties *)

Lemma advance_0 (w : world) (url : pystr) : advance w url 0 0 = w.
Proof. destruct w. unfold advance. cbn. now rewrite !app_nil_r. Qed.

Lemma advance_step (w : world) (url : pystr) (k j : nat) :
  advance (time_sleep API_RETRY_DELAY
             (mkWorld (server w) (requests_sent w ++ [url]) (sleeps w)))
    url k j
  = advance w url (S k) (S j).
Proof.
  unfold advance, time_sleep. cbn [server requests_sent sleeps repeat].
  now rewrite <- !app_assoc.
Qed.

Lemma advance_step_request (w : world) (url : pystr) (k j : nat) :
  mkWorld (server (advance w url k j))
    (requests_sent (advance w url k j) ++ [url])
    (sleeps (advance w url k j))
  = advance w url (S k) j.
Proof.
  unfold advance. cbn [server requests_sent sleeps].
  rewrite <- app_assoc. f_equal. f_equal.
  change [url] with (repeat url 1). rewrite <- repeat_app.
  now rewrite Nat.add_1_r.
Qed.

Lemma advance_step_sleep (w : world) (url : pystr) (k j : nat) :
  time_sleep API_RETRY_DELAY (advance w url k j) = advance w url k (S j).
Proof.
  unfold advance, time_sleep. cbn [server requests_sent sleeps].
  rewrite <- app_assoc. f_equal. f_equal.
  change [API_RETRY_DELAY] with (repeat API_RETRY_DELAY 1).
  rewrite <- repeat_app. now rewrite Nat.add_1_r.
Qed.

Lemma answer_advance (w : world) (url : pystr) (timeout : Z) (k j i : nat) :
  answer (advance w url k j) url timeout i = answer w url timeout (k + i).
Proof.
  unfold answer, advance. cbn [server requests_sent].
  rewrite length_app, repeat_length. f_equal. lia.
Qed.

(** The loop passes every retryable attempt that is not the last one, at the
    price of one request and one sleep each. *)
Lemma retry_loop_skip (url : pystr) (max_retries timeout : Z) (i : nat) :
  forall (k m : nat) (w : world),
    Z.of_nat (k + m) = max_retries ->
    (i < m)%nat ->
    (forall j, (j < i)%nat ->
       http_retryable (answer w url timeout j)
       || network_error (answer w url timeout j) = true) ->
    retry_loop url max_retries timeout (seq k m) w
    = retry_loop url max_retries timeout (seq (k + i) (m - i))
        (advance w url i i).
Proof.
  induction i as [|i IH]; intros k m w Hkm Him Hretry.
  - now rewrite Nat.add_0_r, Nat.sub_0_r, advance_0.
  - destruct m as [|m]; [lia|].
    cbn [seq]. rewrite retry_loop_step. cbv zeta.
    assert (Hrest :
      retry_loop url max_retries timeout (seq (S k) m)
        (time_sleep API_RETRY_DELAY
           (mkWorld (server w) (requests_sent w ++ [url]) (sleeps w)))
      = retry_loop url max_retries timeout (seq (k + S i) (S m - S i))
          (advance w url (S i) (S i))).
    { rewrite (IH (S k) m) by
        (try lia;
         intros j Hj; specialize (Hretry (S j) ltac:(lia));
         unfold answer in *; cbn [time_sleep server requests_sent];
         rewrite length_app; cbn [length];
         now replace (length (requests_sent w) + 1 + j)%nat
           with (length (requests_sent w) + S j)%nat by lia).
      rewrite advance_step. f_equal. f_equal; lia. }
    specialize (Hretry 0%nat ltac:(lia)). unfold answer in Hretry.
    rewrite Nat.add_0_r in Hretry.
    destruct (server w (length (requests_sent w)) url timeout)
      as [status_code json | | |]; cbn in Hretry; try discriminate.
    + rewrite orb_false_r in Hretry.
      apply andb_true_iff in Hretry as [-> Hor].
      destruct (status_code =? 429); [exact Hrest|].
      cbn in Hor. rewrite Hor. exact Hrest.
    + assert (E : (Z.of_nat k <? max_retries - 1) = true)
        by (apply Z.ltb_lt; lia).
      rewrite E. exact Hrest.
    + assert (E : (Z.of_nat k <? max_retries - 1) = true)
        by (apply Z.ltb_lt; lia).
      rewrite E. exact Hrest.
Qed.

Lemma seq_budget (max_retries : Z) (i : nat) :
  (i < Z.to_nat max_retries)%nat ->
  Z.of_nat (0 + Z.to_nat max_retries) = max_retries
  /\ seq (0 + i) (Z.to_nat max_retries - i)
     = i :: seq (S i) (Z.to_nat max_retries - S i).
Proof.
  intros Hi. split; [lia|].
  replace (Z.to_nat max_retries - i)%nat
    with (S (Z.to_nat max_retries - S i)) by lia.
  reflexivity.
Qed.

Lemma answer_0 (w : world) (url : pystr) (timeout : Z) :
  answer w url timeout 0 = server w (length (requests_sent w)) url timeout.
Proof. unfold answer. now rewrite Nat.add_0_r. Qed.

Lemma answer_after_retry (w : world) (url : pystr) (timeout : Z) (j : nat) :
  answer (time_sleep API_RETRY_DELAY
            (mkWorld (server w) (requests_sent w ++ [url]) (sleeps w)))
    url timeout j
  = answer w url timeout (S j).
Proof.
  unfold answer. cbn [time_sleep server requests_sent].
  rewrite length_app. cbn [length]. f_equal. lia.
Qed.

Lemma advance_1_0 (w : world) (url : pystr) :
  mkWorld (server w) (requests_sent w ++ [url]) (sleeps w)
  = advance w url 1 0.
Proof. unfold advance. cbn [repeat]. now rewrite app_nil_r. Qed.

(** The state of the loop when it has reached attempt [i] of the budget. *)
Lemma fetch_reaches (url : pystr) (max_retries timeout : Z) (w : world)
  (i : nat) :
  (i < Z.to_nat max_retries)%nat ->
  (forall j, (j < i)%nat ->
     http_retryable (answer w url timeout j)
     || network_error (answer w url timeout j) = true) ->
  _make_api_request_with_retry url max_retries timeout w
  = retry_loop url max_retries timeout
      (i :: seq (S i) (Z.to_nat max_retries - S i)) (advance w url i i)
  /\ server (advance w url i i)
       (length (requests_sent (advance w url i i))) url timeout
     = answer w url timeout i.
Proof.
  intros Hi Hretry. destruct (seq_budget max_retries i Hi) as [Hn Hseq].
  split.
  - unfold _make_api_request_with_retry.
    rewrite (retry_loop_skip url max_retries timeout i 0
               (Z.to_nat max_retries) w Hn Hi Hretry).
    now rewrite Hseq.
  - rewrite <- answer_0, answer_advance. f_equal. lia.
Qed.

(** The loop appends [k] requests and [j] sleeps, [j <= k], at most one
    request per attempt number, and at least one when there is an attempt. *)
Lemma retry_loop_world (url : pystr) (max_retries timeout : Z)
  (attempts : list nat) :
  forall w0, exists k j,
    (j <= k <= length attempts)%nat
    /\ (attempts <> [] -> (1 <= k)%nat)
    /\ snd (retry_loop url max_retries timeout attempts w0)
       = advance w0 url k j.
Proof.
  induction attempts as [|attempt attempts IH]; intros w0.
  - exists 0%nat, 0%nat. cbn [retry_loop snd length].
    rewrite advance_0. repeat split; try lia. congruence.
  - rewrite retry_loop_step. cbv zeta.
    destruct (IH (time_sleep API_RETRY_DELAY
                    (mkWorld (server w0) (requests_sent w0 ++ [url])
                       (sleeps w0)))) as [k [j [Hkj [_ Hw]]]].
    rewrite advance_step in Hw.
    loop_cases (server w0 (length (requests_sent w0)) url timeout);
      first [ exists (S k), (S j); cbn [length];
              split; [lia | split; [lia | exact Hw]]
            | exists 1%nat, 0%nat; cbn [length snd];
              split; [lia | split; [lia | apply advance_1_0]] ].
Qed.

Lemma fetch_world (url : pystr) (max_retries timeout : Z) (w : world) :
  exists k j,
    (j <= k <= Z.to_nat max_retries)%nat
    /\ (1 <= max_retries -> (1 <= k)%nat)
    /\ snd (_make_api_request_with_retry url max_retries timeout w)
       = advance w url k j.
Proof.
  unfold _make_api_request_with_retry.
  destruct (retry_loop_world url max_retries timeout
              (seq 0 (Z.to_nat max_retries)) w) as [k [j [Hkj [Hpos Hw]]]].
  rewrite length_seq in Hkj. exists k, j. repeat split; try lia; [|exact Hw].
  intros Hmax. apply Hpos.
  rewrite (seq_budget_pos max_retries Hmax). discriminate.
Qed.

(** X1: whatever the server answers, the fetcher leaves the server as it
    was, appends [k] requests, all to [url], and [j] sleeps, all of
    [API_RETRY_DELAY] seconds, with [j <= k <= max_retries]; with a budget of
    at least one it sends at least one request, and with a budget of zero or
    less it returns [None] and does nothing. *)
Theorem fetch_world_invariants
  (url : pystr) (max_retries timeout : Z) (w : world) :
  (exists k j,
     (j <= k <= Z.to_nat max_retries)%nat
     /\ (1 <= max_retries -> (1 <= k)%nat)
     /\ snd (_make_api_request_with_retry url max_retries timeout w)
        = advance w url k j)
  /\ (max_retries <= 0 ->
      _make_api_request_with_retry url max_retries timeout w = (PyNone, w)).
Proof.
  split.
  - apply fetch_world.
  - intros Hmax. unfold _make_api_request_with_retry.
    replace (Z.to_nat max_retries) with 0%nat by lia. reflexivity.
Qed.

(** X2: a result other than [None] is the parsed body of the last request
    sent: some attempt [i] within the budget answered with a passing status
    and a body that parses to it, every earlier attempt was retryable, and the
    run cost [i + 1] requests and [i] sleeps. *)
Theorem fetch_payload_sound
  (url : pystr) (max_retries timeout : Z) (w : world) (payload : pyval) :
  fst (_make_api_request_with_retry url max_retries timeout w) = payload ->
  payload <> PyNone ->
  exists i,
    (i < Z.to_nat max_retries)%nat
    /\ parsed_payload (answer w url timeout i) = Some payload
    /\ (forall j, (j < i)%nat ->
          http_retryable (answer w url timeout j)
          || network_error (answer w url timeout j) = true)
    /\ snd (_make_api_request_with_retry url max_retries timeout w)
       = advance w url (S i) i.
Proof.
  unfold _make_api_request_with_retry. intros Hfst Hsome.
  enough (G : forall attempts w0,
            fst (retry_loop url max_retries timeout attempts w0) = payload ->
            exists i,
              (i < length attempts)%nat
              /\ parsed_payload (answer w0 url timeout i) = Some payload
              /\ (forall j, (j < i)%nat ->
                    http_retryable (answer w0 url timeout j)
                    || network_error (answer w0 url timeout j) = true)
              /\ snd (retry_loop url max_retries timeout attempts w0)
                 = advance w0 url (S i) i).
  { destruct (G _ _ Hfst) as [i [Hi H]]. rewrite length_seq in Hi.
    now exists i. }
  clear w Hfst.
  induction attempts as [|attempt attempts IH]; intros w Hfst.
  - cbn in Hfst. congruence.
  - rewrite retry_loop_step in Hfst |- *. cbv zeta in Hfst |- *.
    assert (Hagain :
      fst (retry_loop url max_retries timeout attempts
             (time_sleep API_RETRY_DELAY
                (mkWorld (server w) (requests_sent w ++ [url]) (sleeps w))))
      = payload ->
      http_retryable (answer w url timeout 0)
      || network_error (answer w url timeout 0) = true ->
      exists i,
        (i < length (attempt :: attempts))%nat
        /\ parsed_payload (answer w url timeout i) = Some payload
        /\ (forall j, (j < i)%nat ->
              http_retryable (answer w url timeout j)
              || network_error (answer w url timeout j) = true)
        /\ snd (retry_loop url max_retries timeout attempts
                  (time_sleep API_RETRY_DELAY
                     (mkWorld (server w) (requests_sent w ++ [url])
                        (sleeps w))))
           = advance w url (S i) i).
    { intros H H0. destruct (IH _ H) as [i [Hi [Hp [Hr Hw]]]].
      exists (S i). rewrite answer_after_retry in Hp.
      rewrite advance_step in Hw. cbn [length].
      repeat split; [lia | exact Hp | | exact Hw].
      intros [|j] Hj; [exact H0|].
      rewrite <- answer_after_retry. apply Hr. lia. }
    rewrite answer_0 in Hagain.
    destruct (server w (length (requests_sent w)) url timeout)
      as [status_code [body|] | | |] eqn:Hans.
    + cbn [http_retryable network_error] in Hagain.
      destruct (raises_for_status status_code) eqn:Hraise.
      * destruct (status_code =? 429);
          [apply Hagain; [exact Hfst | reflexivity]|].
        destruct (status_code >=? 500);
          [apply Hagain; [exact Hfst | reflexivity]|].
        cbn in Hfst. congruence.
      * cbn [fst] in Hfst. subst body. exists 0%nat.
        rewrite answer_0, Hans. cbn [parsed_payload length snd].
        rewrite Hraise, advance_1_0.
        repeat split; [lia | intros j Hj; lia].
    + cbn [http_retryable network_error] in Hagain.
      destruct (raises_for_status status_code) eqn:Hraise.
      * destruct (status_code =? 429);
          [apply Hagain; [exact Hfst | reflexivity]|].
        destruct (status_code >=? 500);
          [apply Hagain; [exact Hfst | reflexivity]|].
        cbn in Hfst. congruence.
      * cbn in Hfst. congruence.
    + destruct (Z.of_nat attempt <? max_retries - 1);
        [apply Hagain; [exact Hfst | reflexivity] | cbn in Hfst; congruence].
    + destruct (Z.of_nat attempt <? max_retries - 1);
        [apply Hagain; [exact Hfst | reflexivity] | cbn in Hfst; congruence].
    + cbn in Hfst. congruence.
Qed.

(** X3: when attempt [i] of the budget is the first to succeed and all
    attempts before it met rate limiting, server errors, timeouts or
    connection errors, the fetcher returns that payload after [i + 1] requests
    and [i] sleeps. *)
Theorem fetch_first_success_after_retries
  (url : pystr) (max_retries timeout : Z) (w : world) (i : nat)
  (payload : pyval) :
  (i < Z.to_nat max_retries)%nat ->
  (forall j, (j < i)%nat ->
     http_retryable (answer w url timeout j)
     || network_error (answer w url timeout j) = true) ->
  parsed_payload (answer w url timeout i) = Some payload ->
  _make_api_request_with_retry url max_retries timeout w
  = (payload, advance w url (S i) i).
Proof.
  intros Hi Hretry Hok.
  destruct (fetch_reaches url max_retries timeout w i Hi Hretry) as [-> Hans].
  rewrite retry_loop_step. cbv zeta. rewrite Hans, advance_step_request.
  destruct (answer w url timeout i) as [status_code [body|] | | |];
    cbn [parsed_payload] in Hok; try discriminate.
  destruct (raises_for_status status_code); [discriminate|].
  now injection Hok as ->.
Qed.

(** X4: when an attempt within the budget meets a definitive failure (a 4xx
    status other than 429, a body that does not parse, or a request exception
    other than a timeout or connection error) after retryable attempts only,
    the fetcher returns [None] at once: [i + 1] requests, [i] sleeps, and the
    rest of the budget unused. *)
Theorem fetch_definitive_failure_stops
  (url : pystr) (max_retries timeout : Z) (w : world) (i : nat) :
  (i < Z.to_nat max_retries)%nat ->
  (forall j, (j < i)%nat ->
     http_retryable (answer w url timeout j)
     || network_error (answer w url timeout j) = true) ->
  definitive (answer w url timeout i) = true ->
  _make_api_request_with_retry url max_retries timeout w
  = (PyNone, advance w url (S i) i).
Proof.
  intros Hi Hretry Hdef.
  destruct (fetch_reaches url max_retries timeout w i Hi Hretry) as [-> Hans].
  rewrite retry_loop_step. cbv zeta. rewrite Hans, advance_step_request.
  destruct (answer w url timeout i) as [status_code [body|] | | |];
    cbn [definitive] in Hdef; try discriminate; try reflexivity.
  - destruct (raises_for_status status_code); [|discriminate].
    destruct (status_code =? 429); [discriminate|].
    destruct (status_code >=? 500); [discriminate | reflexivity].
  - destruct (raises_for_status status_code); [|reflexivity].
    destruct (status_code =? 429); [discriminate|].
    destruct (status_code >=? 500); [discriminate | reflexivity].
Qed.

(** X5: when every attempt of a budget of [n >= 1] is retryable, the fetcher
    returns [None] after exactly [n] requests; it has slept [n] times when the
    last attempt met status 429 or 5xx (it sleeps even though no attempt
    follows) and [n - 1] times when the last attempt timed out or lost the
    connection. *)
Theorem fetch_exhaustion_accounting
  (url : pystr) (max_retries timeout : Z) (w : world) :
  1 <= max_retries ->
  (forall j, (j < Z.to_nat max_retries)%nat ->
     http_retryable (answer w url timeout j)
     || network_error (answer w url timeout j) = true) ->
  _make_api_request_with_retry url max_retries timeout w
  = (PyNone,
     advance w url (Z.to_nat max_retries)
       (if http_retryable
             (answer w url timeout (Z.to_nat max_retries - 1))
        then Z.to_nat max_retries
        else (Z.to_nat max_retries - 1)%nat)).
Proof.
  intros Hmax Hretry.
  set (i := (Z.to_nat max_retries - 1)%nat).
  assert (Hi : (i < Z.to_nat max_retries)%nat) by (unfold i; lia).
  assert (Hn : Z.to_nat max_retries = S i) by (unfold i; lia).
  destruct (fetch_reaches url max_retries timeout w i Hi
              (fun j Hj => Hretry j ltac:(lia))) as [-> Hans].
  specialize (Hretry i Hi).
  rewrite retry_loop_step. cbv zeta. rewrite Hans, advance_step_request.
  rewrite Hn. replace (S i - S i)%nat with 0%nat by lia.
  cbn [seq retry_loop]. rewrite advance_step_sleep.
  destruct (answer w url timeout i) as [status_code json | | |];
    cbn [http_retryable network_error] in Hretry |- *; try discriminate.
  - rewrite orb_false_r in Hretry. rewrite Hretry.
    apply andb_true_iff in Hretry as [-> Hor].
    destruct (status_code =? 429); [reflexivity|].
    cbn in Hor. rewrite Hor. reflexivity.
  - assert (E : (Z.of_nat i <? max_retries - 1) = false)
      by (apply Z.ltb_ge; lia).
    now rewrite E.
  - assert (E : (Z.of_nat i <? max_retries - 1) = false)
      by (apply Z.ltb_ge; lia).
    now rewrite E.
Qed.

(* ================================================================= *)
(** ** Request validator: further properties *)

Ltac split_all := repeat match goal with |- _ /\ _ => split end.

Lemma lstrip_nil_iff (s : pystr) :
  lstrip s = [] <-> forallb isspace s = true.
Proof.
  induction s as [|c s IH]; [now split|].
  cbn [lstrip forallb]. destruct (isspace c); cbn [andb].
  - exact IH.
  - split; discriminate.
Qed.

Lemma lstrip_head (s : pystr) :
  lstrip s = [] \/ exists c t, lstrip s = c :: t /\ isspace c = false.
Proof.
  induction s as [|c s IH]; [now left|].
  cbn [lstrip]. destruct (isspace c) eqn:E; [exact IH|].
  right. now exists c, s.
Qed.

Lemma lstrip_suffix (s : pystr) :
  exists pre, s = pre ++ lstrip s /\ forallb isspace pre = true.
Proof.
  induction s as [|c s [pre [IH1 IH2]]]; [now exists []|].
  cbn [lstrip]. destruct (isspace c) eqn:E.
  - exists (c :: pre). cbn [app forallb]. rewrite E, IH2. split; [|reflexivity].
    now rewrite <- IH1.
  - now exists [].
Qed.

Lemma forallb_rev {A : Type} (f : A -> bool) (l : list A) :
  forallb f (rev l) = forallb f l.
Proof.
  induction l as [|a l IH]; [reflexivity|].
  cbn [rev forallb]. rewrite forallb_app, IH. cbn. 
  rewrite andb_true_r. apply andb_comm.
Qed.

(** [strip] leaves nothing exactly when the string is white space only. *)
Lemma strip_nil_iff (s : pystr) :
  strip s = [] <-> forallb isspace s = true.
Proof.
  unfold strip, rstrip. split.
  - intros H. apply (f_equal (@rev N)) in H. rewrite rev_involutive in H.
    cbn [rev] in H. apply lstrip_nil_iff in H. rewrite forallb_rev in H.
    destruct (lstrip_head s) as [E | [c [t [E Hc]]]].
    + now apply lstrip_nil_iff.
    + rewrite E in H. cbn [forallb] in H. rewrite Hc in H. discriminate.
  - intros H. apply lstrip_nil_iff in H. now rewrite H.
Qed.

Lemma blank_str (s : pystr) :
  blank (Some (PyStr s)) = forallb isspace s.
Proof.
  cbn [blank]. destruct (forallb isspace s) eqn:E.
  - apply strip_nil_iff in E. now rewrite E.
  - apply Nat.eqb_neq. intros H. apply length_zero_iff_nil in H.
    apply strip_nil_iff in H. congruence.
Qed.

(** X6: the validator accepts a request only if [role] and [location] are
    strings with something other than white space in them and [num_results]
    is an [int] (or [bool]) whose value lies in [1, 50]; the message of an
    accepted request is empty. *)
Theorem validate_sound (d : pydict) (msg : pystr) :
  _validate_search_input d = Ok (true, msg) ->
  msg = []
  /\ exists role location num_results n,
       lookup (lit "role") d = Some (PyStr role)
       /\ lookup (lit "location") d = Some (PyStr location)
       /\ lookup (lit "num_results") d = Some num_results
       /\ forallb isspace role = false
       /\ forallb isspace location = false
       /\ is_int num_results = true
       /\ int_value num_results = Ok n
       /\ 1 <= n <= 50.
Proof.
  rewrite validate_first_violation. unfold validate_spec, checks.
  cbn [find violated]. unfold dict_contains.
  destruct (lookup (lit "role") d) as [role|]; [|discriminate].
  destruct (lookup (lit "location") d) as [location|]; [|discriminate].
  destruct (lookup (lit "num_results") d) as [num_results|]; [|discriminate].
  cbn [negb].
  destruct role as [| | | |r| |]; try discriminate.
  destruct location as [| | | |l| |];
    try (destruct (blank (Some (PyStr r))); discriminate).
  rewrite !blank_str.
  destruct (forallb isspace r) eqn:Er; [discriminate|].
  destruct (forallb isspace l) eqn:El; [discriminate|].
  destruct num_results as [|b|z| | | |]; try discriminate.
  - destruct b; [|discriminate]. intros H. injection H as <-.
    split; [reflexivity|]. exists r, l, (PyBool true), 1.
    split_all; assumption || reflexivity || lia.
  - destruct (Z.ltb_spec z 1) as [|Hlo]; [discriminate|].
    destruct (Z.ltb_spec 50 z) as [|Hhi]; [discriminate|]. cbn [orb].
    intros Hmsg. injection Hmsg as <-.
    split; [reflexivity|]. exists r, l, (PyInt z), z.
    split_all; assumption || reflexivity || lia.
Qed.

(** X7: when all three fields are present, the validator answers "Role must
    be a non-empty string" exactly when [role] is not a string or is a string
    of white space only (the empty string included). *)
Theorem validate_rejects_blank_role
  (d : pydict) (role location num_results : pyval) :
  lookup (lit "role") d = Some role ->
  lookup (lit "location") d = Some location ->
  lookup (lit "num_results") d = Some num_results ->
  (_validate_search_input d
   = Ok (false, lit "Role must be a non-empty string")
   <-> match role with
       | PyStr s => forallb isspace s = true
       | _ => True
       end).
Proof.
  intros Hr Hl Hn. rewrite validate_first_violation.
  unfold validate_spec, checks. cbn [find violated]. unfold dict_contains.
  rewrite Hr, Hl, Hn. cbn [negb].
  destruct role as [| | | |r| |];
    try (split; [intros _; exact I | reflexivity]).
  rewrite blank_str. destruct (forallb isspace r).
  - split; reflexivity.
  - split; [|discriminate]. intros H. exfalso.
    destruct (blank (Some location));
      [vm_compute in H; discriminate|].
    destruct num_results as [|b|z| | | |];
      try (vm_compute in H; discriminate).
    + destruct b; vm_compute in H; discriminate.
    + cbn [find violated] in H. 
      destruct ((z <? 1) || (50 <? z)); vm_compute in H; discriminate.
Qed.

(** X8: the verdict depends on the three required fields only: two
    dictionaries that agree on [role], [location] and [num_results] get the
    same answer, whatever other keys they hold and in whatever order. *)
Theorem validate_ignores_other_keys (d d' : pydict) :
  lookup (lit "role") d = lookup (lit "role") d' ->
  lookup (lit "location") d = lookup (lit "location") d' ->
  lookup (lit "num_results") d = lookup (lit "num_results") d' ->
  _validate_search_input d = _validate_search_input d'.
Proof.
  intros Hr Hl Hn. rewrite !validate_first_violation.
  unfold validate_spec, checks. cbn [find violated]. unfold dict_contains.
  now rewrite Hr, Hl, Hn.
Qed.

(* ================================================================= *)
(** ** Listing formatter: further properties *)

Lemma strip_fixed (a b : N) (x : pystr) :
  isspace a = false -> isspace b = false ->
  strip (a :: x ++ [b]) = a :: x ++ [b].
Proof.
  intros Ha Hb. unfold strip, rstrip. cbn [lstrip]. rewrite Ha.
  change (a :: x ++ [b]) with ((a :: x) ++ [b]).
  rewrite rev_app_distr. cbn [rev app lstrip]. rewrite Hb.
  change (b :: rev x ++ [a]) with ([b] ++ rev x ++ [a]).
  rewrite !rev_app_distr, rev_involutive. reflexivity.
Qed.

Lemma job_block_ends
  (title company location salary created description url : pystr) :
  exists x,
    job_block title company location salary created description url
    = 60%N :: x ++ [62%N].
Proof.
  unfold job_block. rewrite job_block_head, job_block_tail.
  match goal with
  | |- context [lines ((?a :: ?f) :: ?m1 :: ?m2 :: ?m3 :: ?m4 :: ?m5 :: ?m6
                         :: ?m7 :: ?m8 :: ?m9 :: [?l ++ [?b]])] =>
      destruct (lines_framed a b f l [m1; m2; m3; m4; m5; m6; m7; m8; m9])
        as [x [E1 _]]
  end.
  cbn [app] in E1. now exists x.
Qed.

Lemma job_block_tags
  (title company location salary created description url : pystr) :
  exists body,
    job_block title company location salary created description url
    = lit "<job>" ++ body ++ lit "</job>".
Proof.
  unfold job_block, lines.
  match goal with
  | |- context [py_join nl (?a :: ?m1 :: ?m2 :: ?m3 :: ?m4 :: ?m5 :: ?m6
                              :: ?m7 :: ?m8 :: ?m9 :: [?z])] =>
      change (a :: m1 :: m2 :: m3 :: m4 :: m5 :: m6 :: m7 :: m8 :: m9 :: [z])
        with (a :: [m1; m2; m3; m4; m5; m6; m7; m8; m9] ++ [z]);
      rewrite (py_join_cons nl a) by discriminate;
      rewrite (py_join_snoc nl z) by discriminate;
      exists (nl ++ py_join nl [m1; m2; m3; m4; m5; m6; m7; m8; m9] ++ nl)
  end.
  now rewrite <- !app_assoc.
Qed.

Section FormatterEdgeCases.

Variable float_repr : spec_float -> pystr.
Variable str_repr : pystr -> pystr.

Local Abbreviation format_job := (_format_job_listing float_repr str_repr).
Local Abbreviation str := (py_str float_repr str_repr).

(** X9: only a dictionary can be formatted, and whatever its field values
    are, a returned block opens with ["<job>"], closes with ["</job>"] and
    carries no white space around it. *)
Theorem format_output_shape (job : pyval) (out : pystr) :
  format_job job = Ok out ->
  (exists d, job = PyDict d)
  /\ (exists body, out = lit "<job>" ++ body ++ lit "</job>")
  /\ strip out = out.
Proof.
  intros H. destruct job as [| | | | | |d]; try discriminate.
  split; [now exists d|].
  destruct (format_job_listing_inv float_repr str_repr d out H)
    as [company [location [salary [description [_ [_ [_ [_ ->]]]]]]]].
  split; [apply job_block_tags|].
  match goal with
  | |- strip (job_block ?t ?c ?l ?s ?cr ?de ?u) = _ =>
      destruct (job_block_ends t c l s cr de u) as [x ->]
  end.
  now apply strip_fixed.
Qed.

Lemma company_name_given (job : pydict) (name : pystr) (company : pyval) :
  display_name_is (lookup (lit "company") job) name ->
  py_get (dict_get job (lit "company") (PyDict []))
    (lit "display_name") (PyStr (lit "N/A")) = Ok company ->
  company = PyStr name.
Proof.
  intros [c [Hc Hn]]. unfold dict_get. rewrite Hc. cbn [py_get].
  unfold dict_get. rewrite Hn. congruence.
Qed.

Lemma location_name_given (job : pydict) (name : pystr) (location : pyval) :
  display_name_is (lookup (lit "location") job) name ->
  py_get (dict_get job (lit "location") (PyDict []))
    (lit "display_name") (PyStr (lit "N/A")) = Ok location ->
  location = PyStr name.
Proof.
  intros [c [Hc Hn]]. unfold dict_get. rewrite Hc. cbn [py_get].
  unfold dict_get. rewrite Hn. congruence.
Qed.

(** X10: string field values are inserted verbatim, without escaping: the
    returned block contains each of title, company name, location name,
    posting date and URL between its own tags exactly as the listing has it,
    even when the value itself contains tag text. *)
Theorem format_inserts_verbatim (job : pydict) (out : pystr) :
  format_job (PyDict job) = Ok out ->
  (forall t, lookup (lit "title") job = Some (PyStr t) ->
     substring_of (lit "<title>" ++ t ++ lit "</title>") out)
  /\ (forall name, display_name_is (lookup (lit "company") job) name ->
        substring_of (lit "<company>" ++ name ++ lit "</company>") out)
  /\ (forall name, display_name_is (lookup (lit "location") job) name ->
        substring_of (lit "<location>" ++ name ++ lit "</location>") out)
  /\ (forall c, lookup (lit "created") job = Some (PyStr c) ->
        substring_of (lit "<posted_date>" ++ c ++ lit "</posted_date>") out)
  /\ (forall u, lookup (lit "redirect_url") job = Some (PyStr u) ->
        substring_of (lit "<apply_url>" ++ u ++ lit "</apply_url>") out).
Proof.
  intros H.
  destruct (format_job_listing_inv float_repr str_repr job out H)
    as [company [location [salary [description [Hc [Hl [_ [_ ->]]]]]]]].
  assert (Hline : forall tag v close,
            substring_of (tag ++ v ++ close)
              (lit "    " ++ tag ++ v ++ close)).
  { intros tag v close. exists (lit "    "), [].
    now rewrite app_nil_r. }
  split_all.
  - intros t Ht. unfold dict_get at 1. rewrite Ht. cbn [py_str].
    eapply substring_of_trans; [apply (Hline (lit "<title>"))|].
    apply line_substring. do 1 right. left. reflexivity.
  - intros name Hn. rewrite (company_name_given job name company Hn Hc).
    cbn [py_str].
    eapply substring_of_trans; [apply (Hline (lit "<company>"))|].
    apply line_substring. do 2 right. left. reflexivity.
  - intros name Hn. rewrite (location_name_given job name location Hn Hl).
    cbn [py_str].
    eapply substring_of_trans; [apply (Hline (lit "<location>"))|].
    apply line_substring. do 3 right. left. reflexivity.
  - intros c Hcr. unfold dict_get at 2. rewrite Hcr. cbn [py_str].
    eapply substring_of_trans; [apply (Hline (lit "<posted_date>"))|].
    apply line_substring. do 5 right. left. reflexivity.
  - intros u Hu. unfold dict_get at 3. rewrite Hu. cbn [py_str].
    eapply substring_of_trans; [apply (Hline (lit "<apply_url>"))|].
    apply line_substring. do 9 right. left. reflexivity.
Qed.

End FormatterEdgeCases.

(** X11: a string description is never shown with more than 503 characters,
    its first 500 characters are kept, and truncation is idempotent: text that
    was truncated once is left as it is when formatted again. *)
Theorem truncate_description_bounded_idempotent (s : pystr) :
  exists t,
    truncate_description (PyStr s) = Ok (PyStr t)
    /\ (length t <= 503)%nat
    /\ firstn 500 t = firstn 500 s
    /\ truncate_description (PyStr t) = Ok (PyStr t).
Proof.
  exists (shown_description s). rewrite !truncate_description_str.
  split; [reflexivity|]. unfold shown_description.
  destruct (Nat.ltb_spec 500 (length s)) as [Hlong | Hshort].
  - assert (Hlen : length (firstn 500 s) = 500%nat)
      by (apply firstn_length_le; lia).
    assert (Hlen' : length (firstn 500 s ++ lit "...") = 503%nat)
      by (rewrite length_app, Hlen; reflexivity).
    assert (Hkeep : firstn 500 (firstn 500 s ++ lit "...") = firstn 500 s).
    { rewrite firstn_app, Hlen, Nat.sub_diag, firstn_firstn, Nat.min_id.
      cbn [firstn]. apply app_nil_r. }
    rewrite Hlen'. split; [lia|]. split; [exact Hkeep|].
    replace (500 <? 503)%nat with true by reflexivity.
    now rewrite Hkeep.
  - split; [lia|]. split; [reflexivity|].
    apply Nat.ltb_ge in Hshort. now rewrite Hshort.
Qed.

Section FormatterDefaults.

Variable float_repr : spec_float -> pystr.
Variable str_repr : pystr -> pystr.

Local Abbreviation format_job := (_format_job_listing float_repr str_repr).
Local Abbreviation str := (py_str float_repr str_repr).

Lemma name_defaults (job : pydict) (key : pystr) (name : pyval) :
  no_display_name (lookup key job) ->
  py_get (dict_get job key (PyDict []))
    (lit "display_name") (PyStr (lit "N/A")) = Ok name ->
  name = PyStr (lit "N/A").
Proof.
  intros [Hn | [c [Hc Hn]]]; unfold dict_get at 1; rewrite ?Hn, ?Hc;
    cbn [py_get]; unfold dict_get; rewrite ?Hn; cbn [lookup]; congruence.
Qed.

Lemma tagged_line (tag v close : pystr) :
  substring_of (tag ++ v ++ close) (lit "    " ++ tag ++ v ++ close).
Proof. exists (lit "    "), []. now rewrite app_nil_r. Qed.

(** X12: each absent field is defaulted on its own, whatever the other fields
    hold: a returned block shows ["N/A"] for an absent title, posting date or
    URL, for a company or location whose key is absent or whose dictionary
    has no [display_name], and ["No description available"] for an absent
    description. *)
Theorem format_defaults_absent (job : pydict) (out : pystr) :
  format_job (PyDict job) = Ok out ->
  (lookup (lit "title") job = None ->
   substring_of (lit "<title>N/A</title>") out)
  /\ (no_display_name (lookup (lit "company") job) ->
      substring_of (lit "<company>N/A</company>") out)
  /\ (no_display_name (lookup (lit "location") job) ->
      substring_of (lit "<location>N/A</location>") out)
  /\ (lookup (lit "created") job = None ->
      substring_of (lit "<posted_date>N/A</posted_date>") out)
  /\ (lookup (lit "redirect_url") job = None ->
      substring_of (lit "<apply_url>N/A</apply_url>") out)
  /\ (lookup (lit "description") job = None ->
      substring_of (lit "        No description available") out).
Proof.
  intros H.
  destruct (format_job_listing_inv float_repr str_repr job out H)
    as [company [location [salary [description [Hc [Hl [_ [Hd ->]]]]]]]].
  split_all.
  - intros Ht. unfold dict_get at 1. rewrite Ht. cbn [py_str].
    eapply substring_of_trans;
      [apply (tagged_line (lit "<title>") (lit "N/A") (lit "</title>"))|].
    apply line_substring. do 1 right. left. reflexivity.
  - intros Hn. rewrite (name_defaults job _ company Hn Hc). cbn [py_str].
    eapply substring_of_trans;
      [apply (tagged_line (lit "<company>") (lit "N/A") (lit "</company>"))|].
    apply line_substring. do 2 right. left. reflexivity.
  - intros Hn. rewrite (name_defaults job _ location Hn Hl). cbn [py_str].
    eapply substring_of_trans;
      [apply (tagged_line (lit "<location>") (lit "N/A")
                (lit "</location>"))|].
    apply line_substring. do 3 right. left. reflexivity.
  - intros Hcr. unfold dict_get at 2. rewrite Hcr. cbn [py_str].
    eapply substring_of_trans;
      [apply (tagged_line (lit "<posted_date>") (lit "N/A")
                (lit "</posted_date>"))|].
    apply line_substring. do 5 right. left. reflexivity.
  - intros Hu. unfold dict_get at 3. rewrite Hu. cbn [py_str].
    eapply substring_of_trans;
      [apply (tagged_line (lit "<apply_url>") (lit "N/A")
                (lit "</apply_url>"))|].
    apply line_substring. do 9 right. left. reflexivity.
  - intros Hde. unfold dict_get in Hd at 1. rewrite Hde in Hd.
    rewrite truncate_description_str in Hd. injection Hd as <-.
    cbn [py_str].
    replace (shown_description (lit "No description available"))
      with (lit "No description available") by reflexivity.
    apply line_substring. do 7 right. left. reflexivity.
Qed.

(** X13: a null title, posting date or URL is not defaulted: the key is
    present, so [get] returns [None] and the block shows the text ["None"]. *)
Theorem format_null_scalars_show_None (job : pydict) (out : pystr) :
  format_job (PyDict job) = Ok out ->
  (lookup (lit "title") job = Some PyNone ->
   substring_of (lit "<title>None</title>") out)
  /\ (lookup (lit "created") job = Some PyNone ->
      substring_of (lit "<posted_date>None</posted_date>") out)
  /\ (lookup (lit "redirect_url") job = Some PyNone ->
      substring_of (lit "<apply_url>None</apply_url>") out).
Proof.
  intros H.
  destruct (format_job_listing_inv float_repr str_repr job out H)
    as [company [location [salary [description [_ [_ [_ [_ ->]]]]]]]].
  split_all.
  - intros Ht. unfold dict_get at 1. rewrite Ht. cbn [py_str py_repr].
    eapply substring_of_trans;
      [apply (tagged_line (lit "<title>") (lit "None") (lit "</title>"))|].
    apply line_substring. do 1 right. left. reflexivity.
  - intros Hcr. unfold dict_get at 2. rewrite Hcr. cbn [py_str py_repr].
    eapply substring_of_trans;
      [apply (tagged_line (lit "<posted_date>") (lit "None")
                (lit "</posted_date>"))|].
    apply line_substring. do 5 right. left. reflexivity.
  - intros Hu. unfold dict_get at 3. rewrite Hu. cbn [py_str py_repr].
    eapply substring_of_trans;
      [apply (tagged_line (lit "<apply_url>") (lit "None")
                (lit "</apply_url>"))|].
    apply line_substring. do 9 right. left. reflexivity.
Qed.

(** X14: the formatter reads eight keys and nothing else: two listings that
    agree on them are formatted alike, whatever other keys they carry and in
    whatever order. *)
Theorem format_ignores_other_keys (job job' : pydict) :
  (forall key,
     In key [lit "title"; lit "company"; lit "location"; lit "description";
             lit "salary_min"; lit "salary_max"; lit "redirect_url";
             lit "created"] ->
     lookup key job = lookup key job') ->
  format_job (PyDict job) = format_job (PyDict job').
Proof.
  intros Hkeys. unfold _format_job_listing. cbn [py_get bind].
  unfold dict_get.
  rewrite (Hkeys (lit "title")) by (cbn [In]; tauto).
  rewrite (Hkeys (lit "company")) by (cbn [In]; tauto).
  rewrite (Hkeys (lit "location")) by (cbn [In]; tauto).
  rewrite (Hkeys (lit "description")) by (cbn [In]; tauto).
  rewrite (Hkeys (lit "salary_min")) by (cbn [In]; tauto).
  rewrite (Hkeys (lit "salary_max")) by (cbn [In]; tauto).
  rewrite (Hkeys (lit "redirect_url")) by (cbn [In]; tauto).
  rewrite (Hkeys (lit "created")) by (cbn [In]; tauto).
  reflexivity.
Qed.

End FormatterDefaults.

(* ================================================================= *)
(** ** The tool: further properties *)

Lemma format_jobs_raises
  (float_repr : spec_float -> pystr) (str_repr : pystr -> pystr)
  (jobs : list pyval) (job : pyval) (e : exn) :
  In job jobs ->
  _format_job_listing float_repr str_repr job = Raise e ->
  forall i n, exists e', format_jobs float_repr str_repr i n jobs = Raise e'.
Proof.
  induction jobs as [|j jobs IH]; [contradiction|].
  intros [-> | Hin] Hraise i n; cbn [format_jobs].
  - rewrite Hraise. now exists e.
  - destruct (_format_job_listing float_repr str_repr j) as [f|e0];
      cbn [bind]; [|now exists e0].
    destruct (IH Hin Hraise (S i) n) as [e' ->]. now exists e'.
Qed.

Section ToolEdgeCases.

Variable float_repr : spec_float -> pystr.
Variable str_repr : pystr -> pystr.
Variable ADZUNA_APP_ID : option pystr.
Variable ADZUNA_API_KEY : option pystr.

Local Abbreviation format_job := (_format_job_listing float_repr str_repr).
Local Abbreviation str := (py_str float_repr str_repr).
Local Abbreviation tool :=
  (search_jobs float_repr str_repr ADZUNA_APP_ID ADZUNA_API_KEY).
Local Abbreviation url_of :=
  (search_url float_repr str_repr ADZUNA_APP_ID ADZUNA_API_KEY).
Local Abbreviation fetch_for role location num_results :=
  (_make_api_request_with_retry (url_of role location num_results)
     API_MAX_RETRIES API_TIMEOUT).

(** The request the tool builds always has its three keys, so only the four
    value checks can fail. *)
Lemma validate_request (role location num_results : pyval) :
  _validate_search_input (request role location num_results)
  = Ok match find (violated (request role location num_results))
               [RoleEmpty; LocationEmpty; NumResultsType; NumResultsRange]
       with
       | Some v => (false, violation_message v)
       | None => (true, [])
       end.
Proof. rewrite validate_first_violation. reflexivity. Qed.

Lemma search_jobs_fetch_failed
  (role location num_results : pyval) (w w1 : world) :
  _validate_search_input (request role location num_results) = Ok (true, []) ->
  env_unset ADZUNA_APP_ID = false ->
  env_unset ADZUNA_API_KEY = false ->
  fetch_for role location num_results w = (PyNone, w1) ->
  tool role location num_results w = (Ok fetch_failed_message, w1).
Proof.
  intros Hvalid Hid Hkey Hfetch.
  unfold search_jobs. unfold request in Hvalid. rewrite Hvalid.
  cbn [negb]. rewrite Hid, Hkey. cbn [orb]. now rewrite Hfetch.
Qed.

(** X15: when the first failing check of a call is a value check, the tool
    sends no request and returns the invalid-input text: a text that
    contains the line "ERROR: Invalid input parameters." after the cross
    mark, and that quotes that check's message, which is one of the four
    messages of the validator's value checks; this covers arguments of any
    type, such as a null role. *)
Theorem search_jobs_rejects_invalid_input
  (role location num_results : pyval) (w : world) (v : violation) :
  find (violated (request role location num_results))
    [RoleEmpty; LocationEmpty; NumResultsType; NumResultsRange] = Some v ->
  exists out : pystr,
    tool role location num_results w = (Ok out, w)
    /\ out = invalid_input_message (violation_message v)
    /\ substring_of ([10060%N] ++ lit " ERROR: Invalid input parameters.")
         out
    /\ substring_of (violation_message v) out
    /\ In (violation_message v)
         [ lit "Role must be a non-empty string";
           lit "Location must be a non-empty string";
           lit "num_results must be an integer";
           lit "num_results must be between 1 and 50" ].
Proof.
  intros Hv. pose proof (validate_request role location num_results) as Hval.
  rewrite Hv in Hval. unfold search_jobs. unfold request in Hval.
  exists (invalid_input_message (violation_message v)).
  destruct (invalid_input_message_quotes (violation_message v)) as [He Hq].
  split; [now rewrite Hval|]. split; [reflexivity|].
  split; [exact He|]. split; [exact Hq|].
  apply find_some in Hv. destruct Hv as [Hin _]. cbn [In] in Hin.
  destruct Hin as [<- | [<- | [<- | [<- | []]]]]; cbn [In];
    [ left | right; left | do 2 right; left | do 3 right; left ];
    reflexivity.
Qed.

(** X16: on a valid request, when either credential is unset or empty the
    tool returns the missing-credentials text and sends no request. *)
Theorem search_jobs_missing_credentials
  (role location num_results : pyval) (w : world) :
  _validate_search_input (request role location num_results) = Ok (true, []) ->
  env_unset ADZUNA_APP_ID = true \/ env_unset ADZUNA_API_KEY = true ->
  tool role location num_results w = (Ok missing_credentials_message, w).
Proof.
  intros Hvalid Hcred. unfold search_jobs. unfold request in Hvalid.
  rewrite Hvalid. cbn [negb].
  destruct Hcred as [-> | ->]; [reflexivity|].
  now rewrite orb_true_r.
Qed.

(** X17: whatever the arguments and whatever the server answers, one call
    of the tool sends at most three requests, all to the search URL built
    from its arguments, and sleeps at most as often as it sends. *)
Theorem search_jobs_network_budget
  (role location num_results : pyval) (w : world) :
  exists k j,
    (j <= k <= 3)%nat
    /\ snd (tool role location num_results w)
       = advance w (url_of role location num_results) k j.
Proof.
  unfold search_jobs.
  change [(lit "role", role); (lit "location", location);
          (lit "num_results", num_results)]
    with (request role location num_results).
  rewrite validate_first_violation.
  destruct (validate_spec (request role location num_results))
    as [is_valid error_message].
  assert (Hsame : exists k j,
            (j <= k <= 3)%nat
            /\ w = advance w (url_of role location num_results) k j)
    by (exists 0%nat, 0%nat; rewrite advance_0; split; [lia | reflexivity]).
  destruct is_valid; cbn [negb snd]; [|exact Hsame].
  destruct (env_unset ADZUNA_APP_ID || env_unset ADZUNA_API_KEY);
    cbn [snd]; [exact Hsame|].
  destruct (fetch_world (url_of role location num_results)
              API_MAX_RETRIES API_TIMEOUT w) as [k [j [Hkj [_ Hw]]]].
  destruct (fetch_for role location num_results w) as [jobs_data w1].
  cbn [snd] in Hw. exists k, j.
  split; [exact Hkj|]. now destruct jobs_data.
Qed.

(** X18: a response with a passing status whose JSON body is [null] parses
    to [None], which the tool cannot tell from a failed fetch: it returns the
    fetch-failure text after that single request. *)
Theorem search_jobs_null_body_is_failure
  (role location num_results : pyval) (w : world) (status_code : Z) :
  _validate_search_input (request role location num_results) = Ok (true, []) ->
  env_unset ADZUNA_APP_ID = false ->
  env_unset ADZUNA_API_KEY = false ->
  server w (length (requests_sent w)) (url_of role location num_results)
    API_TIMEOUT = Response status_code (Some PyNone) ->
  raises_for_status status_code = false ->
  tool role location num_results w
  = (Ok fetch_failed_message,
     advance w (url_of role location num_results) 1 0).
Proof.
  intros Hvalid Hid Hkey Hans Hpass.
  apply search_jobs_fetch_failed; try assumption.
  unfold _make_api_request_with_retry.
  change (seq 0 (Z.to_nat API_MAX_RETRIES)) with [0; 1; 2]%nat.
  rewrite retry_loop_step. cbv zeta.
  now rewrite Hans, Hpass, advance_1_0.
Qed.

(** X19: a payload that is neither [None] nor a dictionary (a JSON array,
    string, number or boolean at top level) has no [get]: the tool raises
    [AttributeError] instead of returning text. *)
Theorem search_jobs_non_dict_payload_raises
  (role location num_results jobs_data : pyval) (w w1 : world) :
  _validate_search_input (request role location num_results) = Ok (true, []) ->
  env_unset ADZUNA_APP_ID = false ->
  env_unset ADZUNA_API_KEY = false ->
  fetch_for role location num_results w = (jobs_data, w1) ->
  jobs_data <> PyNone ->
  (forall d, jobs_data <> PyDict d) ->
  tool role location num_results w = (Raise AttributeError, w1).
Proof.
  intros Hvalid Hid Hkey Hfetch Hsome Hdict.
  rewrite (search_jobs_after_fetch float_repr str_repr ADZUNA_APP_ID
             ADZUNA_API_KEY role location num_results jobs_data w w1)
    by assumption.
  destruct jobs_data as [| | | | | |d]; try reflexivity.
  now destruct (Hdict d).
Qed.

(** X20: one listing the formatter cannot handle aborts the whole call: if
    any element of [results] makes the formatter raise, the tool raises too
    and returns none of the other listings. *)
Theorem search_jobs_bad_listing_aborts
  (role location num_results : pyval) (w w1 : world) (d : pydict)
  (jobs : list pyval) (job : pyval) (e : exn) :
  _validate_search_input (request role location num_results) = Ok (true, []) ->
  env_unset ADZUNA_APP_ID = false ->
  env_unset ADZUNA_API_KEY = false ->
  fetch_for role location num_results w = (PyDict d, w1) ->
  lookup (lit "results") d = Some (PyList jobs) ->
  In job jobs ->
  format_job job = Raise e ->
  exists e', tool role location num_results w = (Raise e', w1).
Proof.
  intros Hvalid Hid Hkey Hfetch Hres Hin Hraise.
  rewrite (search_jobs_after_fetch float_repr str_repr ADZUNA_APP_ID
             ADZUNA_API_KEY role location num_results (PyDict d) w w1)
    by (assumption || discriminate).
  assert (E : dict_get d (lit "results") (PyList []) = PyList jobs)
    by (unfold dict_get; now rewrite Hres).
  unfold format_results. cbn [py_get bind]. rewrite E.
  destruct jobs as [|j jobs]; [contradiction|].
  cbn [truthy negb py_len bind length Nat.eqb py_iter].
  destruct (format_jobs_raises float_repr str_repr (j :: jobs) job e Hin
              Hraise 1%nat (S (length jobs))) as [e' ->].
  now exists e'.
Qed.

(** X21: a [results] value that is false in a boolean context, of whatever
    type (null, [0], [False], [0.0], the empty string, list or dictionary),
    gives the "no results" text for the role and location searched: the
    returned text contains the sentence "No job listings found for '<role>'
    in <location>.", hence the role and the location. *)
Theorem search_jobs_falsy_results
  (role location : pystr) (num_results results : pyval) (w w1 : world)
  (d : pydict) :
  _validate_search_input
    (request (PyStr role) (PyStr location) num_results) = Ok (true, []) ->
  env_unset ADZUNA_APP_ID = false ->
  env_unset ADZUNA_API_KEY = false ->
  fetch_for (PyStr role) (PyStr location) num_results w = (PyDict d, w1) ->
  lookup (lit "results") d = Some results ->
  truthy results = false ->
  exists out : pystr,
    tool (PyStr role) (PyStr location) num_results w = (Ok out, w1)
    /\ out = no_results_message role location
    /\ substring_of
         (lit "No job listings found for '" ++ role ++ lit "' in "
            ++ location ++ lit ".") out
    /\ substring_of role out
    /\ substring_of location out.
Proof.
  intros Hvalid Hid Hkey Hfetch Hres Hfalse.
  exists (no_results_message role location).
  rewrite (search_jobs_after_fetch float_repr str_repr ADZUNA_APP_ID
             ADZUNA_API_KEY _ _ _ (PyDict d) w w1)
    by (assumption || discriminate).
  assert (E : dict_get d (lit "results") (PyList []) = results)
    by (unfold dict_get; now rewrite Hres).
  unfold format_results. cbn [py_get bind]. rewrite E, Hfalse.
  destruct (no_results_message_names role location) as [Hs [Hr [Hl _]]].
  cbn [negb bind py_str].
  repeat (split; [first [reflexivity | assumption]|]). exact Hl.
Qed.

(** X22: a [results] value that is true in a boolean context but is a
    number or boolean has no [len], and the tool raises [TypeError]; a
    non-empty string is iterated by character, and the tool raises
    [AttributeError] on the first one. *)
Theorem search_jobs_results_not_a_list
  (role location num_results results : pyval) (w w1 : world) (d : pydict) :
  _validate_search_input (request role location num_results) = Ok (true, []) ->
  env_unset ADZUNA_APP_ID = false ->
  env_unset ADZUNA_API_KEY = false ->
  fetch_for role location num_results w = (PyDict d, w1) ->
  lookup (lit "results") d = Some results ->
  truthy results = true ->
  match results with
  | PyBool _ | PyInt _ | PyFloat _ =>
      tool role location num_results w = (Raise TypeError, w1)
  | PyStr _ =>
      tool role location num_results w = (Raise AttributeError, w1)
  | _ => True
  end.
Proof.
  intros Hvalid Hid Hkey Hfetch Hres Htrue.
  rewrite (search_jobs_after_fetch float_repr str_repr ADZUNA_APP_ID
             ADZUNA_API_KEY role location num_results (PyDict d) w w1)
    by (assumption || discriminate).
  assert (E : dict_get d (lit "results") (PyList []) = results)
    by (unfold dict_get; now rewrite Hres).
  unfold format_results. cbn [py_get bind]. rewrite E, Htrue.
  destruct results as [|b|z|f|s| |]; try exact I;
    cbn [negb py_len bind]; try reflexivity.
  destruct s as [|c s]; [discriminate|]. reflexivity.
Qed.

End ToolEdgeCases.

(* ================================================================= *)
(** ** Configuration checks: proofs *)

Lemma empty_setting_spec (s : pystr) :
  Config.empty_setting s = forallb isspace s.
Proof.
  destruct s as [|c s]; [reflexivity|].
  cbn [Config.empty_setting]. apply (blank_str (c :: s)).
Qed.

Lemma bad_model_spec (s : pystr) :
  Config.bad_model s = false <-> exists rest, s = lit "anthropic/" ++ rest.
Proof.
  destruct s as [|c s]; cbn [Config.bad_model].
  - split; [discriminate | intros [rest H]; discriminate].
  - rewrite negb_false_iff. apply starts_with_spec.
Qed.

(** The error list is the messages of the failing checks, in source order. *)
Lemma validate_config_errors (c : Config.t) :
  snd (Config.validate_config c)
  = List.map snd (filter fst (Config.checks c)).
Proof.
  unfold Config.validate_config, Config.checks, Config.append_if.
  cbv zeta. cbn [snd].
  destruct (env_unset (Config.ANTHROPIC_API_KEY c));
    destruct (env_unset (Config.ADZUNA_APP_ID c));
    destruct (env_unset (Config.ADZUNA_API_KEY c));
    destruct (Config.empty_setting (Config.DEFAULT_JOB_ROLE c));
    destruct (Config.empty_setting (Config.DEFAULT_LOCATION c));
    destruct ((Config.DEFAULT_NUM_RESULTS c <? 1)
              || (Config.DEFAULT_NUM_RESULTS c >? 50));
    destruct (Config.bad_model (Config.CLAUDE_MODEL c));
    reflexivity.
Qed.

Lemma validate_config_verdict (c : Config.t) :
  fst (Config.validate_config c)
  = (length (snd (Config.validate_config c)) =? 0)%nat.
Proof. reflexivity. Qed.

Lemma filter_fst_nil {A : Type} (l : list (bool * A)) :
  filter fst l = [] <-> forall x, In x l -> fst x = false.
Proof.
  induction l as [|[b a] l IH]; cbn [filter fst In].
  - split; [intros _ x [] | reflexivity].
  - destruct b.
    + split; [discriminate|]. intros H. specialize (H (true, a)).
      cbn in H. discriminate H. now left.
    + rewrite IH. split.
      * intros H x [<- | Hx]; [reflexivity | now apply H].
      * intros H x Hx. apply H. now right.
Qed.

Lemma in_filter_fst {A : Type} (l : list (bool * A)) (a : A) :
  In a (List.map snd (filter fst l)) <-> In (true, a) l.
Proof.
  rewrite in_map_iff. split.
  - intros [[b x] [Hs Hin]]. apply filter_In in Hin as [Hin Hb].
    cbn in Hs, Hb. now subst.
  - intros Hin. exists (true, a). split; [reflexivity|].
    apply filter_In. now split.
Qed.

(** X23: [validate_config] accepts a configuration exactly when all three
    keys are set and non-empty, the default role and location have something
    other than white space in them, the default result count lies in
    [1, 50] and the model name starts with ["anthropic/"]; it accepts exactly
    when its error list is empty. *)
Theorem validate_config_valid_iff (c : Config.t) :
  (fst (Config.validate_config c) = true
   <-> env_unset (Config.ANTHROPIC_API_KEY c) = false
       /\ env_unset (Config.ADZUNA_APP_ID c) = false
       /\ env_unset (Config.ADZUNA_API_KEY c) = false
       /\ forallb isspace (Config.DEFAULT_JOB_ROLE c) = false
       /\ forallb isspace (Config.DEFAULT_LOCATION c) = false
       /\ 1 <= Config.DEFAULT_NUM_RESULTS c <= 50
       /\ exists rest, Config.CLAUDE_MODEL c = lit "anthropic/" ++ rest)
  /\ (fst (Config.validate_config c) = true
      <-> snd (Config.validate_config c) = []).
Proof.
  assert (Hnil : fst (Config.validate_config c) = true
                 <-> snd (Config.validate_config c) = []).
  { rewrite validate_config_verdict, Nat.eqb_eq. apply length_zero_iff_nil. }
  split; [|exact Hnil].
  rewrite Hnil, validate_config_errors.
  assert (Hmap : forall l : list (bool * pystr),
            List.map snd l = [] <-> l = [])
    by (intros [|x l]; split; (reflexivity || discriminate)).
  rewrite Hmap, filter_fst_nil.
  rewrite <- !empty_setting_spec, <- bad_model_spec.
  unfold Config.checks. split.
  - intros H.
    pose proof (fun b m Hin => H (b, m) Hin) as H'. cbn [fst] in H'.
    assert (Hn : (Config.DEFAULT_NUM_RESULTS c <? 1)
                 || (Config.DEFAULT_NUM_RESULTS c >? 50) = false)
      by (eapply H'; cbn [In]; do 5 right; left; reflexivity).
    apply orb_false_iff in Hn as [Hlo Hhi].
    apply Z.ltb_ge in Hlo. rewrite Z.gtb_ltb in Hhi. apply Z.ltb_ge in Hhi.
    split_all; try lia;
      eapply H'; cbn [In];
      first [ left; reflexivity
            | do 1 right; left; reflexivity
            | do 2 right; left; reflexivity
            | do 3 right; left; reflexivity
            | do 4 right; left; reflexivity
            | do 6 right; left; reflexivity ].
  - intros [H1 [H2 [H3 [H4 [H5 [[Hlo Hhi] H7]]]]]] x Hin.
    assert (Hn : (Config.DEFAULT_NUM_RESULTS c <? 1)
                 || (Config.DEFAULT_NUM_RESULTS c >? 50) = false).
    { apply orb_false_iff. split; [apply Z.ltb_ge; lia|].
      rewrite Z.gtb_ltb. apply Z.ltb_ge. lia. }
    cbn [In] in Hin.
    repeat (destruct Hin as [<- | Hin]; [cbn [fst]; assumption|]).
    contradiction.
Qed.

(** X24: [validate_config] collects every problem instead of stopping at the
    first: a message is in the returned list exactly when it is the message
    of a check that fails, so each failing check is reported whatever the
    others do. *)
Theorem validate_config_reports_all (c : Config.t) (msg : pystr) :
  In msg (snd (Config.validate_config c)) <-> In (true, msg) (Config.checks c).
Proof. rewrite validate_config_errors. apply in_filter_fst. Qed.

(** X26: [print_config] shows for each key only whether it is set: two
    configurations that differ in the values of their keys but not in which
    keys are set print the same lines. *)
Theorem print_config_masks_keys (c c' : Config.t) :
  env_unset (Config.ANTHROPIC_API_KEY c)
  = env_unset (Config.ANTHROPIC_API_KEY c') ->
  env_unset (Config.ADZUNA_APP_ID c) = env_unset (Config.ADZUNA_APP_ID c') ->
  env_unset (Config.ADZUNA_API_KEY c) = env_unset (Config.ADZUNA_API_KEY c') ->
  Config.DEFAULT_JOB_ROLE c = Config.DEFAULT_JOB_ROLE c' ->
  Config.DEFAULT_LOCATION c = Config.DEFAULT_LOCATION c' ->
  Config.DEFAULT_NUM_RESULTS c = Config.DEFAULT_NUM_RESULTS c' ->
  Config.CLAUDE_MODEL c = Config.CLAUDE_MODEL c' ->
  Config.AGENT_VERBOSE c = Config.AGENT_VERBOSE c' ->
  Config.AGENT_ALLOW_DELEGATION c = Config.AGENT_ALLOW_DELEGATION c' ->
  Config.OUTPUT_DIR c = Config.OUTPUT_DIR c' ->
  Config.print_config c = Config.print_config c'.
Proof.
  intros H1 H2 H3 H4 H5 H6 H7 H8 H9 H10.
  unfold Config.print_config, Config.key_status.
  now rewrite H1, H2, H3, H4, H5, H6, H7, H8, H9, H10.
Qed.

Section ConfigAndTool.

Variable float_repr : spec_float -> pystr.
Variable str_repr : pystr -> pystr.

(** X25: a configuration that [validate_config] accepts is accepted by the
    tool: called with the configured keys and defaults, [search_jobs] passes
    its own validation and credential check and sends at least one request
    (and at most three). *)
Theorem validated_config_reaches_network (c : Config.t) (w : world) :
  fst (Config.validate_config c) = true ->
  _validate_search_input
    (request (PyStr (Config.DEFAULT_JOB_ROLE c))
       (PyStr (Config.DEFAULT_LOCATION c))
       (PyInt (Config.DEFAULT_NUM_RESULTS c))) = Ok (true, [])
  /\ exists k j,
       (j <= k)%nat /\ (1 <= k <= 3)%nat
       /\ snd (search_jobs float_repr str_repr (Config.ADZUNA_APP_ID c)
                 (Config.ADZUNA_API_KEY c)
                 (PyStr (Config.DEFAULT_JOB_ROLE c))
                 (PyStr (Config.DEFAULT_LOCATION c))
                 (PyInt (Config.DEFAULT_NUM_RESULTS c)) w)
          = advance w
              (search_url float_repr str_repr (Config.ADZUNA_APP_ID c)
                 (Config.ADZUNA_API_KEY c)
                 (PyStr (Config.DEFAULT_JOB_ROLE c))
                 (PyStr (Config.DEFAULT_LOCATION c))
                 (PyInt (Config.DEFAULT_NUM_RESULTS c))) k j.
Proof.
  intros Hvalid.
  apply (proj1 (validate_config_valid_iff c)) in Hvalid
    as [_ [Hid [Hkey [Hrole [Hloc [Hnum _]]]]]].
  assert (Hreq :
    _validate_search_input
      (request (PyStr (Config.DEFAULT_JOB_ROLE c))
         (PyStr (Config.DEFAULT_LOCATION c))
         (PyInt (Config.DEFAULT_NUM_RESULTS c))) = Ok (true, [])).
  { rewrite validate_request. cbn [find violated].
    replace (lookup (lit "role") (request _ _ _))
      with (Some (PyStr (Config.DEFAULT_JOB_ROLE c))) by reflexivity.
    replace (lookup (lit "location") (request _ _ _))
      with (Some (PyStr (Config.DEFAULT_LOCATION c))) by reflexivity.
    replace (lookup (lit "num_results") (request _ _ _))
      with (Some (PyInt (Config.DEFAULT_NUM_RESULTS c))) by reflexivity.
    rewrite !blank_str, Hrole, Hloc.
    destruct (Z.ltb_spec (Config.DEFAULT_NUM_RESULTS c) 1); [lia|].
    destruct (Z.ltb_spec 50 (Config.DEFAULT_NUM_RESULTS c)); [lia|].
    reflexivity. }
  split; [exact Hreq|].
  unfold search_jobs. unfold request in Hreq. rewrite Hreq.
  cbn [negb]. rewrite Hid, Hkey. cbn [orb].
  match goal with
  | |- context [_make_api_request_with_retry ?u ?m ?t w] =>
      destruct (fetch_world u m t w) as [k [j [Hkj [Hpos Hw]]]];
      destruct (_make_api_request_with_retry u m t w) as [jobs_data w1]
  end.
  cbn [snd] in Hw. exists k, j.
  assert (Hk : (1 <= k)%nat) by (apply Hpos; unfold API_MAX_RETRIES; lia).
  change (Z.to_nat API_MAX_RETRIES) with 3%nat in Hkj.
  split; [lia|]. split; [lia|]. now destruct jobs_data.
Qed.

End ConfigAndTool.

(* ================================================================= *)
(** ** Saving task output: proofs *)

Lemma digit_inj (a b : N) : Tasks.digit a = Tasks.digit b -> a = b.
Proof. unfold Tasks.digit. apply N.add_cancel_l. Qed.

Lemma list2_inj {A : Type} (x y x' y' : A) :
  [x; y] = [x'; y'] -> x = x' /\ y = y'.
Proof. intros H. now injection H. Qed.

Lemma list4_inj {A : Type} (x y z u x' y' z' u' : A) :
  [x; y; z; u] = [x'; y'; z'; u'] -> x = x' /\ y = y' /\ z = z' /\ u = u'.
Proof. intros H. now injection H. Qed.

Lemma pad2_inj (a b : N) : Tasks.pad2 a = Tasks.pad2 b -> a = b.
Proof.
  unfold Tasks.pad2. intros H. apply list2_inj in H as [Hq Hr].
  apply digit_inj in Hq, Hr.
  rewrite (N.div_mod a 10), (N.div_mod b 10) by discriminate.
  now rewrite Hq, Hr.
Qed.

Lemma pad4_inj (a b : N) : Tasks.pad4 a = Tasks.pad4 b -> a = b.
Proof.
  unfold Tasks.pad4. intros H. apply list4_inj in H as [H3 [H2 [H1 H0]]].
  apply digit_inj in H3, H2, H1, H0.
  assert (E100 : (a / 100 = b / 100)%N).
  { rewrite (N.div_mod (a / 100) 10), (N.div_mod (b / 100) 10)
      by discriminate.
    rewrite !N.Div0.div_div.
    change (100 * 10)%N with 1000%N. now rewrite H3, H2. }
  assert (E10 : (a / 10 = b / 10)%N).
  { rewrite (N.div_mod (a / 10) 10), (N.div_mod (b / 10) 10)
      by discriminate.
    rewrite !N.Div0.div_div.
    change (10 * 10)%N with 100%N. now rewrite E100, H1. }
  rewrite (N.div_mod a 10), (N.div_mod b 10) by discriminate.
  now rewrite E10, H0.
Qed.

Lemma app_inj_length_r {A : Type} (a c b d : list A) :
  length b = length d -> a ++ b = c ++ d -> a = c /\ b = d.
Proof.
  revert c. induction a as [|x a IH]; intros [|y c] Hlen H; cbn [app] in H.
  - now split.
  - exfalso. apply (f_equal (@length A)) in H.
    cbn [length] in H. rewrite length_app in H. lia.
  - exfalso. apply (f_equal (@length A)) in H.
    cbn [length] in H. rewrite length_app in H. lia.
  - injection H as -> H. destruct (IH c Hlen H) as [-> ->]. now split.
Qed.

Lemma app_inj_length_l {A : Type} (a c b d : list A) :
  length a = length c -> a ++ b = c ++ d -> a = c /\ b = d.
Proof.
  intros Hlen H. apply app_inj_length_r; [|exact H].
  apply (f_equal (@length A)) in H. rewrite !length_app in H. lia.
Qed.

Lemma str_eqb_eq (a b : pystr) : str_eqb a b = true <-> a = b.
Proof.
  unfold str_eqb. destruct (list_eq_dec N.eq_dec a b); split;
    congruence.
Qed.

Lemma timestamp_length (t : Tasks.datetime) :
  length (Tasks.get_timestamp t) = 15%nat.
Proof. reflexivity. Qed.

Lemma get_timestamp_inj (t t' : Tasks.datetime) :
  Tasks.get_timestamp t = Tasks.get_timestamp t' -> t = t'.
Proof.
  destruct t as [y mo d h mi s], t' as [y' mo' d' h' mi' s'].
  unfold Tasks.get_timestamp, Tasks.strftime_Ymd_HMS.
  cbn [Tasks.year Tasks.month Tasks.day Tasks.hour Tasks.minute Tasks.second].
  intros H.
  apply app_inj_length_l in H as [Hy H]; [|reflexivity].
  apply app_inj_length_l in H as [Hmo H]; [|reflexivity].
  apply app_inj_length_l in H as [Hd H]; [|reflexivity].
  apply app_inj_length_l in H as [_ H]; [|reflexivity].
  apply app_inj_length_l in H as [Hh H]; [|reflexivity].
  apply app_inj_length_l in H as [Hmi Hs]; [|reflexivity].
  apply pad4_inj in Hy. apply pad2_inj in Hmo, Hd, Hh, Hmi, Hs.
  now subst.
Qed.

(** X27: for every clock reading with a four-digit year, the timestamp has
    15 characters, and distinct readings (to the second) give distinct
    timestamps. *)
Theorem get_timestamp_injective (t t' : Tasks.datetime) :
  Tasks.valid t -> Tasks.valid t' ->
  length (Tasks.get_timestamp t) = 15%nat
  /\ (Tasks.get_timestamp t = Tasks.get_timestamp t' -> t = t').
Proof.
  intros _ _. split; [apply timestamp_length | apply get_timestamp_inj].
Qed.

Lemma task_filename_inj (name name' ts ts' : pystr) :
  length ts = length ts' ->
  Tasks.task_filename name ts = Tasks.task_filename name' ts' ->
  name = name' /\ ts = ts'.
Proof.
  unfold Tasks.task_filename. intros Hlen H.
  apply app_inj_length_r in H as [Hname H].
  - split; [exact Hname|].
    change (lit "_" ++ ts ++ lit ".txt") with (95%N :: ts ++ lit ".txt") in H.
    change (lit "_" ++ ts' ++ lit ".txt")
      with (95%N :: ts' ++ lit ".txt") in H.
    injection H as H. now apply app_inv_tail in H.
  - rewrite !length_app, Hlen. reflexivity.
Qed.

Lemma write_file_same (name content : pystr) (dir : Tasks.directory) :
  Tasks.write_file name content dir name = Some content.
Proof.
  unfold Tasks.write_file.
  now rewrite (proj2 (str_eqb_eq name name) eq_refl).
Qed.

Lemma write_file_other (name name' content : pystr) (dir : Tasks.directory) :
  name' <> name ->
  Tasks.write_file name content dir name' = dir name'.
Proof.
  intros Hne. unfold Tasks.write_file.
  destruct (str_eqb name' name) eqn:E; [|reflexivity].
  apply str_eqb_eq in E. contradiction.
Qed.

(** X28: two saves never share a file unless they are for the same task in
    the same second: when the task names or the clock readings differ, both
    files are there afterwards, each with its own content; when both agree,
    the second save replaces the first and the first output is lost. *)
Theorem callback_file_collisions
  (name name' raw raw' : pystr) (now now' : Tasks.datetime)
  (dir : Tasks.directory) :
  Tasks.valid now -> Tasks.valid now' ->
  let dir2 :=
    fst (Tasks.callback name' now' raw'
           (fst (Tasks.callback name now raw dir))) in
  ((name <> name' \/ now <> now') ->
   dir2 (Tasks.task_filename name (Tasks.get_timestamp now))
   = Some (Tasks.task_file_content name (Tasks.get_timestamp now) raw)
   /\ dir2 (Tasks.task_filename name' (Tasks.get_timestamp now'))
      = Some (Tasks.task_file_content name' (Tasks.get_timestamp now') raw'))
  /\ (name = name' -> now = now' ->
      dir2 (Tasks.task_filename name (Tasks.get_timestamp now))
      = Some (Tasks.task_file_content name (Tasks.get_timestamp now) raw')).
Proof.
  intros Hv Hv'. cbv zeta. unfold Tasks.callback. cbv zeta. cbn [fst].
  split.
  - intros Hdiff. split; [|apply write_file_same].
    rewrite write_file_other; [apply write_file_same|].
    intros Heq. apply task_filename_inj in Heq as [Hn Ht];
      [|now rewrite !timestamp_length].
    apply get_timestamp_inj in Ht.
    destruct Hdiff as [Hd | Hd]; now apply Hd.
  - intros -> ->. apply write_file_same.
Qed.





(* ================================================================= *)
(** ** The further properties at concrete inputs *)

Lemma fetch_world_invariants_witness :
  _make_api_request_with_retry example_url 0 API_TIMEOUT not_found_world
  = (PyNone, not_found_world).
Proof.
  refine (proj2 (fetch_world_invariants example_url 0 API_TIMEOUT
                   not_found_world) _).
  lia.
Defined.

Lemma fetch_payload_sound_witness :
  exists i,
    (i < Z.to_nat API_MAX_RETRIES)%nat
    /\ parsed_payload
         (answer rate_limited_twice_world example_url API_TIMEOUT i)
       = Some (PyDict one_listing_payload)
    /\ (forall j, (j < i)%nat ->
          http_retryable
            (answer rate_limited_twice_world example_url API_TIMEOUT j)
          || network_error
               (answer rate_limited_twice_world example_url API_TIMEOUT j)
          = true)
    /\ snd (_make_api_request_with_retry example_url API_MAX_RETRIES
              API_TIMEOUT rate_limited_twice_world)
       = advance rate_limited_twice_world example_url (S i) i.
Proof.
  refine (fetch_payload_sound example_url API_MAX_RETRIES API_TIMEOUT
            rate_limited_twice_world (PyDict one_listing_payload) _ _).
  - reflexivity.
  - discriminate.
Defined.

Lemma fetch_first_success_after_retries_witness :
  _make_api_request_with_retry example_url API_MAX_RETRIES API_TIMEOUT
    rate_limited_twice_world
  = (PyDict one_listing_payload,
     advance rate_limited_twice_world example_url 3 2).
Proof.
  refine (fetch_first_success_after_retries example_url API_MAX_RETRIES
            API_TIMEOUT rate_limited_twice_world 2
            (PyDict one_listing_payload) _ _ _).
  - vm_compute. lia.
  - intros [|[|j]] Hj; [reflexivity | reflexivity | lia].
  - reflexivity.
Defined.

Lemma fetch_definitive_failure_stops_witness :
  _make_api_request_with_retry example_url API_MAX_RETRIES API_TIMEOUT
    server_error_then_not_found_world
  = (PyNone, advance server_error_then_not_found_world example_url 2 1).
Proof.
  refine (fetch_definitive_failure_stops example_url API_MAX_RETRIES
            API_TIMEOUT server_error_then_not_found_world 1 _ _ _).
  - vm_compute. lia.
  - intros [|j] Hj; [reflexivity | lia].
  - reflexivity.
Defined.

Lemma fetch_exhaustion_accounting_witness :
  _make_api_request_with_retry example_url API_MAX_RETRIES API_TIMEOUT
    always_rate_limited_world
  = (PyNone, advance always_rate_limited_world example_url 3 3)
  /\ _make_api_request_with_retry example_url API_MAX_RETRIES API_TIMEOUT
       always_timeout_world
     = (PyNone, advance always_timeout_world example_url 3 2).
Proof.
  split.
  - refine (fetch_exhaustion_accounting example_url API_MAX_RETRIES
              API_TIMEOUT always_rate_limited_world _ _).
    + unfold API_MAX_RETRIES. lia.
    + intros j _. reflexivity.
  - refine (fetch_exhaustion_accounting example_url API_MAX_RETRIES
              API_TIMEOUT always_timeout_world _ _).
    + unfold API_MAX_RETRIES. lia.
    + intros j _. reflexivity.
Defined.

Lemma validate_sound_witness :
  exists role location num_results n,
    lookup (lit "role") example_request = Some (PyStr role)
    /\ lookup (lit "location") example_request = Some (PyStr location)
    /\ lookup (lit "num_results") example_request = Some num_results
    /\ forallb isspace role = false
    /\ forallb isspace location = false
    /\ is_int num_results = true
    /\ int_value num_results = Ok n
    /\ 1 <= n <= 50.
Proof.
  refine (proj2 (validate_sound example_request [] _)).
  by_computation.
Defined.

Lemma validate_rejects_blank_role_witness :
  _validate_search_input blank_role_request
  = Ok (false, lit "Role must be a non-empty string").
Proof.
  refine (proj2 (validate_rejects_blank_role blank_role_request
                   (PyStr (lit "   ")) (PyStr (lit "Los Angeles")) (PyInt 5)
                   _ _ _) _);
    reflexivity.
Defined.

Lemma validate_ignores_other_keys_witness :
  _validate_search_input example_request
  = _validate_search_input example_request_reordered.
Proof.
  refine (validate_ignores_other_keys example_request
            example_request_reordered _ _ _);
    reflexivity.
Defined.

Lemma format_output_shape_witness :
  (exists d, listing_1 = PyDict d)
  /\ (exists body, listing_1_formatted = lit "<job>" ++ body ++ lit "</job>")
  /\ strip listing_1_formatted = listing_1_formatted.
Proof.
  refine (format_output_shape ex_float_repr ex_str_repr listing_1
            listing_1_formatted _).
  by_computation.
Defined.

Lemma format_inserts_verbatim_witness :
  substring_of (lit "<title>" ++ lit "</job><job>" ++ lit "</title>")
    (job_block (lit "</job><job>") (lit "N/A") (lit "N/A")
       (lit "Not specified") (lit "N/A") (lit "No description available")
       (lit "N/A")).
Proof.
  refine (proj1 (format_inserts_verbatim ex_float_repr ex_str_repr
                   tag_title_job _ _) (lit "</job><job>") _);
    by_computation.
Defined.

Lemma format_defaults_absent_witness :
  substring_of (lit "<company>N/A</company>")
    (job_block (lit "N/A") (lit "N/A") (lit "N/A")
       (lit "$120,000 - $180,000") (lit "N/A")
       (lit "No description available") (lit "N/A")).
Proof.
  refine (proj1 (proj2 (format_defaults_absent ex_float_repr ex_str_repr
                          salary_job _ _)) _).
  - by_computation.
  - left. reflexivity.
Defined.

Lemma format_null_scalars_show_None_witness :
  substring_of (lit "<title>None</title>")
    (job_block (lit "None") (lit "N/A") (lit "N/A")
       (lit "Not specified") (lit "N/A") (lit "No description available")
       (lit "N/A")).
Proof.
  refine (proj1 (format_null_scalars_show_None ex_float_repr ex_str_repr
                   null_title_job _ _) _);
    by_computation.
Defined.

Lemma format_ignores_other_keys_witness :
  _format_job_listing ex_float_repr ex_str_repr (PyDict salary_job)
  = _format_job_listing ex_float_repr ex_str_repr (PyDict salary_job_with_id).
Proof.
  refine (format_ignores_other_keys ex_float_repr ex_str_repr salary_job
            salary_job_with_id _).
  intros key Hkey. cbn [In] in Hkey.
  repeat (destruct Hkey as [<- | Hkey]; [reflexivity|]).
  contradiction.
Defined.

Lemma search_jobs_rejects_invalid_input_witness :
  exists out : pystr,
    search_jobs ex_float_repr ex_str_repr test_app_id test_api_key
      PyNone (PyStr (lit "Los Angeles")) (PyInt 5) one_listing_world
    = (Ok out, one_listing_world)
    /\ out = invalid_input_message (lit "Role must be a non-empty string")
    /\ substring_of ([10060%N] ++ lit " ERROR: Invalid input parameters.")
         out
    /\ substring_of (lit "Role must be a non-empty string") out
    /\ In (lit "Role must be a non-empty string")
         [ lit "Role must be a non-empty string";
           lit "Location must be a non-empty string";
           lit "num_results must be an integer";
           lit "num_results must be between 1 and 50" ].
Proof.
  refine (search_jobs_rejects_invalid_input ex_float_repr ex_str_repr
            test_app_id test_api_key PyNone (PyStr (lit "Los Angeles"))
            (PyInt 5) one_listing_world RoleEmpty _).
  reflexivity.
Defined.

Lemma search_jobs_missing_credentials_witness :
  search_jobs ex_float_repr ex_str_repr None test_api_key
    (PyStr (lit "Data Scientist")) (PyStr (lit "Los Angeles")) (PyInt 1)
    one_listing_world
  = (Ok missing_credentials_message, one_listing_world).
Proof.
  refine (search_jobs_missing_credentials ex_float_repr ex_str_repr
            None test_api_key _ _ _ one_listing_world _ _).
  - by_computation.
  - left. reflexivity.
Defined.

Lemma search_jobs_null_body_is_failure_witness :
  search_jobs ex_float_repr ex_str_repr test_app_id test_api_key
    (PyStr (lit "Data Scientist")) (PyStr (lit "Los Angeles")) (PyInt 1)
    null_body_world
  = (Ok fetch_failed_message, advance null_body_world example_url 1 0).
Proof.
  refine (search_jobs_null_body_is_failure ex_float_repr ex_str_repr
            test_app_id test_api_key _ _ _ null_body_world 200 _ _ _ _ _);
    by_computation.
Defined.

Lemma search_jobs_non_dict_payload_raises_witness :
  search_jobs ex_float_repr ex_str_repr test_app_id test_api_key
    (PyStr (lit "Data Scientist")) (PyStr (lit "Los Angeles")) (PyInt 1)
    array_payload_world
  = (Raise AttributeError, advance array_payload_world example_url 1 0).
Proof.
  refine (search_jobs_non_dict_payload_raises ex_float_repr ex_str_repr
            test_app_id test_api_key _ _ _ (PyList []) array_payload_world
            _ _ _ _ _ _ _);
    try by_computation; discriminate.
Defined.

Lemma search_jobs_bad_listing_aborts_witness :
  exists e,
    search_jobs ex_float_repr ex_str_repr test_app_id test_api_key
      (PyStr (lit "Data Scientist")) (PyStr (lit "Los Angeles")) (PyInt 1)
      bad_listing_world
    = (Raise e, advance bad_listing_world example_url 1 0).
Proof.
  refine (search_jobs_bad_listing_aborts ex_float_repr ex_str_repr
            test_app_id test_api_key _ _ _ bad_listing_world _
            bad_listing_payload
            [listing_1; PyDict [(lit "company", PyNone)]]
            (PyDict [(lit "company", PyNone)]) AttributeError
            _ _ _ _ _ _ _);
    try by_computation.
  right. left. reflexivity.
Defined.

Lemma search_jobs_falsy_results_witness :
  exists out : pystr,
    search_jobs ex_float_repr ex_str_repr test_app_id test_api_key
      (PyStr (lit "Data Scientist")) (PyStr (lit "Los Angeles")) (PyInt 1)
      null_results_world
    = (Ok out, advance null_results_world example_url 1 0)
    /\ out = no_results_message (lit "Data Scientist") (lit "Los Angeles")
    /\ substring_of
         (lit "No job listings found for '" ++ lit "Data Scientist"
            ++ lit "' in " ++ lit "Los Angeles" ++ lit ".") out
    /\ substring_of (lit "Data Scientist") out
    /\ substring_of (lit "Los Angeles") out.
Proof.
  refine (search_jobs_falsy_results ex_float_repr ex_str_repr
            test_app_id test_api_key _ _ _ PyNone null_results_world _
            [(lit "results", PyNone)] _ _ _ _ _ _);
    by_computation.
Defined.

Lemma search_jobs_results_not_a_list_witness :
  search_jobs ex_float_repr ex_str_repr test_app_id test_api_key
    (PyStr (lit "Data Scientist")) (PyStr (lit "Los Angeles")) (PyInt 1)
    number_results_world
  = (Raise TypeError, advance number_results_world example_url 1 0).
Proof.
  refine (search_jobs_results_not_a_list ex_float_repr ex_str_repr
            test_app_id test_api_key _ _ _ (PyInt 5) number_results_world _
            [(lit "results", PyInt 5)] _ _ _ _ _ _);
    by_computation.
Defined.

Lemma validated_config_reaches_network_witness :
  _validate_search_input
    (request (PyStr (Config.DEFAULT_JOB_ROLE example_config))
       (PyStr (Config.DEFAULT_LOCATION example_config))
       (PyInt (Config.DEFAULT_NUM_RESULTS example_config))) = Ok (true, []).
Proof.
  refine (proj1 (validated_config_reaches_network ex_float_repr ex_str_repr
                   example_config one_listing_world _)).
  by_computation.
Defined.

Lemma print_config_masks_keys_witness :
  Config.print_config example_config
  = Config.print_config example_config_other_keys.
Proof.
  refine (print_config_masks_keys example_config example_config_other_keys
            _ _ _ _ _ _ _ _ _ _);
    reflexivity.
Defined.

Lemma workshop_time_valid : Tasks.valid workshop_time.
Proof. unfold Tasks.valid, workshop_time. cbn. lia. Defined.

Lemma an_hour_later_valid : Tasks.valid an_hour_later.
Proof. unfold Tasks.valid, an_hour_later. cbn. lia. Defined.

Lemma get_timestamp_injective_witness :
  length (Tasks.get_timestamp workshop_time) = 15%nat
  /\ Tasks.get_timestamp workshop_time = lit "20251020_183005".
Proof.
  split.
  - exact (proj1 (get_timestamp_injective workshop_time an_hour_later
                    workshop_time_valid an_hour_later_valid)).
  - reflexivity.
Defined.

Lemma callback_file_collisions_witness :
  fst (Tasks.callback (lit "job_search") workshop_time (lit "second run")
         (fst (Tasks.callback (lit "job_search") workshop_time
                 (lit "first run") empty_directory)))
    (lit "job_search_20251020_183005.txt")
  = Some (Tasks.task_file_content (lit "job_search")
            (lit "20251020_183005") (lit "second run")).
Proof.
  exact (proj2 (callback_file_collisions (lit "job_search")
                  (lit "job_search") (lit "first run") (lit "second run")
                  workshop_time workshop_time empty_directory
                  workshop_time_valid workshop_time_valid)
           eq_refl eq_refl).
Defined.
